(** * Lift constructs: the Database and Vpc declarations

    A shallow embedding of [src/constructs/Database.ts] and of the Vpc
    construct, together with the fragment of JSON Schema and of ECMAScript
    regular expressions that their configuration schemas use. *)

From Stdlib Require Import Ascii String ZArith QArith Lia Bool.
From stdpp Require Import base option list strings gmap.

Local Open Scope string_scope.
Local Open Scope list_scope.
Local Open Scope Z_scope.

(** ** ECMAScript regular expressions (the fragment the schemas use)

    A JSON Schema [pattern] is an ECMAScript pattern source: the validator
    builds [new RegExp(pattern)] and calls [test] on the value, which looks
    for a match starting at any index.  No flag is set, so [^] and [$] are
    the input boundaries.  A string holds the UTF-8 encoding of the text: the
    atoms of the two patterns are ASCII characters, which no byte of a longer
    character matches, as no code unit of it does in the program. *)
Module Regex.

(** One member of a character class. *)
Inductive ClassAtom : Type :=
| CAChar (c : ascii)
| CARange (lo hi : ascii)
| CAWord           (* \w : [A-Za-z0-9_] *)
| CADigit.         (* \d : [0-9] *)

Inductive Atom : Type :=
| AChar (c : ascii)
| AClass (members : list ClassAtom).

Inductive Term : Type :=
| TStart           (* ^ *)
| TEnd             (* $ *)
| TAtom (a : Atom)
| TStar (a : Atom).

Definition code (c : ascii) : N := N_of_ascii c.

Definition in_range (lo hi c : ascii) : bool :=
  (code lo <=? code c)%N && (code c <=? code hi)%N.

Definition is_digit (c : ascii) : bool := in_range "0" "9" c.

Definition is_word (c : ascii) : bool :=
  in_range "a" "z" c || in_range "A" "Z" c || is_digit c
  || Ascii.eqb c "_".

Definition is_alnum (c : ascii) : bool :=
  in_range "a" "z" c || in_range "A" "Z" c || is_digit c.

Definition class_atom_matches (m : ClassAtom) (c : ascii) : bool :=
  match m with
  | CAChar x => Ascii.eqb x c
  | CARange lo hi => in_range lo hi c
  | CAWord => is_word c
  | CADigit => is_digit c
  end.

Definition atom_matches (a : Atom) (c : ascii) : bool :=
  match a with
  | AChar x => Ascii.eqb x c
  | AClass ms => existsb (fun m => class_atom_matches m c) ms
  end.

(** *** Parsing a pattern source *)

(** Tokens between [[] and []]: an unescaped hyphen is kept apart, it is
    the range operator when it stands between two members. *)
Inductive ClassTok : Type :=
| CTChar (c : ascii)
| CTDash
| CTWord
| CTDigit.

Definition tok_atom (t : ClassTok) : ClassAtom :=
  match t with
  | CTChar c => CAChar c
  | CTDash => CAChar "-"
  | CTWord => CAWord
  | CTDigit => CADigit
  end.

Definition tok_char (t : ClassTok) : option ascii :=
  match t with
  | CTChar c => Some c
  | CTDash => Some "-"%char
  | CTWord | CTDigit => None
  end.

(** ClassRanges.  [a-b] between two characters is a range (a syntax error
    when it is out of order); when either side is a class escape the
    hyphen stands for itself (the legacy rule without the [u] flag). *)
Fixpoint class_ranges (ts : list ClassTok) : option (list ClassAtom) :=
  match ts with
  | [] => Some []
  | a :: CTDash :: b :: rest =>
      match class_ranges rest with
      | None => None
      | Some ms =>
          match tok_char a, tok_char b with
          | Some lo, Some hi =>
              if (code lo <=? code hi)%N then Some (CARange lo hi :: ms) else None
          | _, _ => Some (tok_atom a :: CAChar "-" :: tok_atom b :: ms)
          end
      end
  | a :: rest =>
      match class_ranges rest with
      | None => None
      | Some ms => Some (tok_atom a :: ms)
      end
  end.

Inductive PState : Type :=
| PTop
| PTopEsc
| PClass (toks : list ClassTok)
| PClassEsc (toks : list ClassTok).

(** Syntax characters whose meaning is outside the fragment. *)
Definition unsupported (c : ascii) : bool :=
  existsb (Ascii.eqb c) ["("; ")"; "|"; "+"; "?"; "{"; "."]%char.

(** One pass over the source; [acc] holds the terms read so far, last
    first.  [None] is a pattern outside the fragment or a syntax error. *)
Fixpoint parse_from (st : PState) (acc : list Term) (s : string)
  : option (list Term) :=
  match s with
  | EmptyString =>
      match st with
      | PTop => Some (rev acc)
      | _ => None
      end
  | String c s' =>
      match st with
      | PTop =>
          if Ascii.eqb c "^" then parse_from PTop (TStart :: acc) s'
          else if Ascii.eqb c "$" then parse_from PTop (TEnd :: acc) s'
          else if Ascii.eqb c "\" then parse_from PTopEsc acc s'
          else if Ascii.eqb c "[" then parse_from (PClass []) acc s'
          else if Ascii.eqb c "*" then
            match acc with
            | TAtom a :: acc' => parse_from PTop (TStar a :: acc') s'
            | _ => None
            end
          else if unsupported c then None
          else parse_from PTop (TAtom (AChar c) :: acc) s'
      | PTopEsc =>
          if Ascii.eqb c "w" then parse_from PTop (TAtom (AClass [CAWord]) :: acc) s'
          else if Ascii.eqb c "d" then parse_from PTop (TAtom (AClass [CADigit]) :: acc) s'
          else if is_alnum c then None
          else parse_from PTop (TAtom (AChar c) :: acc) s'
      | PClass toks =>
          if Ascii.eqb c "]" then
            match class_ranges (rev toks) with
            | Some ms => parse_from PTop (TAtom (AClass ms) :: acc) s'
            | None => None
            end
          else if Ascii.eqb c "\" then parse_from (PClassEsc toks) acc s'
          else if Ascii.eqb c "-" then parse_from (PClass (CTDash :: toks)) acc s'
          else if Ascii.eqb c "^" && match toks with [] => true | _ => false end then None
          else parse_from (PClass (CTChar c :: toks)) acc s'
      | PClassEsc toks =>
          if Ascii.eqb c "w" then parse_from (PClass (CTWord :: toks)) acc s'
          else if Ascii.eqb c "d" then parse_from (PClass (CTDigit :: toks)) acc s'
          else if is_alnum c then None
          else parse_from (PClass (CTChar c :: toks)) acc s'
      end
  end.

Definition parse (src : string) : option (list Term) := parse_from PTop [] src.

(** *** Matching *)

(** [match_terms ts at_start s]: the terms match a prefix of [s], where
    [at_start] tells whether [s] starts at index 0 of the input.  The
    star is greedy and backtracks. *)
Fixpoint match_terms (ts : list Term) (at_start : bool) (s : string) : bool :=
  match ts with
  | [] => true
  | TStart :: ts' => at_start && match_terms ts' at_start s
  | TEnd :: ts' =>
      match s with
      | EmptyString => match_terms ts' at_start s
      | String _ _ => false
      end
  | TAtom a :: ts' =>
      match s with
      | EmptyString => false
      | String c s' => atom_matches a c && match_terms ts' false s'
      end
  | TStar a :: ts' =>
      (fix star (at_start : bool) (s : string) {struct s} : bool :=
         match s with
         | EmptyString => match_terms ts' at_start s
         | String c s' =>
             (atom_matches a c && star false s') || match_terms ts' at_start s
         end) at_start s
  end.

(** A match starting at the current index or at a later one. *)
Fixpoint search (ts : list Term) (at_start : bool) (s : string) : bool :=
  match_terms ts at_start s
  || match s with
     | EmptyString => false
     | String _ s' => search ts false s'
     end.

(** [new RegExp(src).test(s)]; [None] when the source does not parse. *)
Definition test (src : string) (s : string) : option bool :=
  match parse src with
  | Some ts => Some (search ts true s)
  | None => None
  end.

End Regex.

(** ** JSON values and the JSON Schema keywords the two schemas use *)
Module Json.

(** A JSON value.  Numbers are rationals (every finite double is one).
    Arrays and nested objects carry no contents: every property of the two
    schemas has a primitive type, so a validator never looks inside. *)
Inductive json : Type :=
| JNull
| JBool (b : bool)
| JNumber (q : Q)
| JString (s : string)
| JArray
| JObject.

Definition json_eqb (a b : json) : bool :=
  match a, b with
  | JNull, JNull => true
  | JBool x, JBool y => Bool.eqb x y
  | JNumber x, JNumber y => Qeq_bool x y
  | JString x, JString y => String.eqb x y
  | _, _ => false
  end.

Inductive JType : Type := TyString | TyInteger | TyNumber | TyBoolean | TyObject.

Definition is_integer (q : Q) : bool := (Qnum q mod Zpos (Qden q) =? 0)%Z.

Definition has_type (t : JType) (v : json) : bool :=
  match t, v with
  | TyString, JString _ => true
  | TyInteger, JNumber q => is_integer q
  | TyNumber, JNumber _ => true
  | TyBoolean, JBool _ => true
  | TyObject, JObject => true
  | _, _ => false
  end.

(** The schema of one property: each keyword is present or not. *)
Record PropertySchema : Type := {
  type_ : option JType;
  pattern : option string;
  minLength : option nat;
  enum : option (list json);
  minimum : option Q;
  const : option json;
}.

Record ObjectSchema : Type := {
  properties : list (string * PropertySchema);
  additionalProperties : bool;
  required : list string;
}.

(** A failed keyword, with the property it failed on. *)
Record ValidationError : Type := {
  field : string;
  keyword : string;
}.

Definition check (ok : bool) (k kw : string) : list ValidationError :=
  if ok then [] else [{| field := k; keyword := kw |}].

(** [pattern] and [minLength] constrain strings only, [minimum] numbers
    only; another kind of value passes them.  A source that is not a
    pattern of the fragment fails the keyword. *)
Definition pattern_ok (src : string) (v : json) : bool :=
  match v with
  | JString s =>
      match Regex.test src s with
      | Some b => b
      | None => false
      end
  | _ => true
  end.

(** [minLength] counts characters (code points), not code units.  In UTF-8
    a character is one byte that is not a continuation byte ([10xxxxxx]),
    followed by its continuation bytes. *)
Definition is_continuation (c : ascii) : bool :=
  (128 <=? N_of_ascii c)%N && (N_of_ascii c <? 192)%N.

Fixpoint code_points (s : string) : nat :=
  match s with
  | EmptyString => 0%nat
  | String c s' => if is_continuation c then code_points s' else S (code_points s')
  end.

Definition minLength_ok (n : nat) (v : json) : bool :=
  match v with
  | JString s => (n <=? code_points s)%nat
  | _ => true
  end.

Definition minimum_ok (m : Q) (v : json) : bool :=
  match v with
  | JNumber q => Qle_bool m q
  | _ => true
  end.

Definition when_present {A} (o : option A) (ok : A -> bool) (k kw : string)
  : list ValidationError :=
  match o with
  | Some a => check (ok a) k kw
  | None => []
  end.

Definition property_errors (k : string) (ps : PropertySchema) (v : json)
  : list ValidationError :=
  when_present (type_ ps) (fun t => has_type t v) k "type"
  ++ when_present (pattern ps) (fun p => pattern_ok p v) k "pattern"
  ++ when_present (minLength ps) (fun n => minLength_ok n v) k "minLength"
  ++ when_present (enum ps) (fun vs => existsb (json_eqb v) vs) k "enum"
  ++ when_present (minimum ps) (fun m => minimum_ok m v) k "minimum"
  ++ when_present (const ps) (fun c => json_eqb v c) k "const".

Definition declared (sch : ObjectSchema) : list string := (properties sch).*1.

(** The errors of an object against a schema of [type: "object"]: the
    declared properties that are present, then the undeclared ones (when
    [additionalProperties] is false), then the required ones. *)
Definition errors (sch : ObjectSchema) (o : gmap string json)
  : list ValidationError :=
  (properties sch ≫= fun '(k, ps) =>
     match o !! k with
     | Some v => property_errors k ps v
     | None => []
     end)
  ++ (if additionalProperties sch then []
      else elements (dom o) ≫= fun k =>
             check (bool_decide (k ∈ declared sch)) k "additionalProperties")
  ++ (required sch ≫= fun k =>
        check (bool_decide (is_Some (o !! k))) k "required").

Definition valid (sch : ObjectSchema) (o : gmap string json) : bool :=
  match errors sch o with
  | [] => true
  | _ :: _ => false
  end.

End Json.

Import Json.

(** ** Completions and the construction monad

    A TypeScript function returns a value or throws; a constructor also
    creates objects and calls the provider.  [World] is the store of the
    objects created so far together with the calls made on the provider. *)
Inductive Completion (A : Type) : Type :=
| Normal (a : A)
| Throw (error : string).
Arguments Normal {A} a.
Arguments Throw {A} error.

(** ** The cloud SDK: the values and objects the constructs hand to it *)
Module Cdk.

(** A reference to an object of the store. *)
Definition Loc : Type := nat.

Record EngineVersion : Type := {
  fullVersion : string;
  majorVersion : string;
}.

(** [MysqlEngineVersion.of], [MariaDbEngineVersion.of],
    [PostgresEngineVersion.of]. *)
Definition EngineVersion_of (full major : string) : EngineVersion :=
  {| fullVersion := full; majorVersion := major |}.

(** [DatabaseInstanceEngine.mysql], [.mariaDb], [.postgres]. *)
Inductive IInstanceEngine : Type :=
| mysql (version : EngineVersion)
| mariaDb (version : EngineVersion)
| postgres (version : EngineVersion).

Definition engineType (e : IInstanceEngine) : string :=
  match e with
  | mysql _ => "mysql"
  | mariaDb _ => "mariadb"
  | postgres _ => "postgres"
  end.

Definition engineVersion (e : IInstanceEngine) : EngineVersion :=
  match e with
  | mysql v | mariaDb v | postgres v => v
  end.

Record InstanceType : Type := { instanceTypeIdentifier : string }.

Inductive SecretValue : Type := plainText (secret : string).

Inductive Credentials : Type :=
| fromPassword (username : string) (password : SecretValue).

Inductive SubnetType : Type := ISOLATED | PRIVATE | PUBLIC.

Record SubnetSelection : Type := { subnetType : SubnetType }.

Inductive Duration : Type := days (amount : Z).

Inductive RetentionDays : Type :=
| ONE_DAY | THREE_DAYS | FIVE_DAYS | ONE_WEEK | TWO_WEEKS | ONE_MONTH.

Record DatabaseInstanceProps : Type := {
  instanceIdentifier : string;
  databaseName : string;
  (** [None] is [undefined]. *)
  engine : option IInstanceEngine;
  instanceType : InstanceType;
  credentials : Credentials;
  vpc : Loc;
  vpcSubnets : SubnetSelection;
  allocatedStorage : Z;
  backupRetention : Duration;
  cloudwatchLogsExports : list string;
  cloudwatchLogsRetention : RetentionDays;
}.

Record VpcProps : Type := { maxAzs : Z }.

(** The source gives a security group its network only: [allowAllOutbound]
    keeps its default, true. *)
Record SecurityGroupProps : Type := { sg_vpc : Loc }.

Inductive Peer : Type := anyIpv4 | anyIpv6 | ipv4 (cidr : string).

Inductive Port : Type := allTraffic | allTcp | tcp (port : Z).

Record CfnOutputProps : Type := { value : string }.

Record Subnet : Type := { subnetId : string }.

(** An object of the store, with the scope and the id it was created
    under: the children of an object are the objects that have it as their
    scope.  The store holds the objects the two constructs create; what the
    SDK creates inside its own objects (the subnets of a network, the subnet
    group of an instance) is not kept, it is seen through [Attributes]. *)
Inductive Resource : Type :=
| Construct (scope : Loc) (id : string)
| Vpc (scope : Loc) (id : string) (props : VpcProps)
| SecurityGroup (scope : Loc) (id : string) (props : SecurityGroupProps)
    (egress : list (Peer * Port))
| DatabaseInstance (scope : Loc) (id : string) (props : DatabaseInstanceProps)
| CfnOutput (scope : Loc) (id : string) (props : CfnOutputProps).

Definition scope_of (r : Resource) : Loc :=
  match r with
  | Construct s _ | Vpc s _ _ | SecurityGroup s _ _ _
  | DatabaseInstance s _ _ | CfnOutput s _ _ => s
  end.

Definition id_of (r : Resource) : string :=
  match r with
  | Construct _ i | Vpc _ i _ | SecurityGroup _ i _ _
  | DatabaseInstance _ i _ | CfnOutput _ i _ => i
  end.

(** A call on the provider. *)
Inductive ProviderCall : Type :=
| EnableVpc
| SetVpcConfig (securityGroups subnets : list string).

Record World : Type := {
  heap : list Resource;
  calls : list ProviderCall;
}.

Definition M (A : Type) : Type := World -> Completion (A * World).

Definition ret {A} (a : A) : M A := fun w => Normal (a, w).

Definition bind {A B} (m : M A) (k : A -> M B) : M B :=
  fun w =>
    match m w with
    | Normal (a, w') => k a w'
    | Throw e => Throw e
    end.

Definition lift {A} (c : Completion A) : M A :=
  fun w =>
    match c with
    | Normal a => Normal (a, w)
    | Throw e => Throw e
    end.

Definition throw {A} (error : string) : M A := fun _ => Throw error.

Definition call (c : ProviderCall) : M unit :=
  fun w => Normal (tt, {| heap := heap w; calls := calls w ++ [c] |}).

(** What the SDK answers for the attributes of the objects it manages:
    they are tokens resolved at deployment. *)
Class Attributes : Type := {
  securityGroupName : Loc -> string;
  privateSubnets : Loc -> list Subnet;
  instanceEndpoint_hostname : Loc -> string;
  instanceEndpoint_port : Loc -> string;
}.

(** [r] is the child of [scope] named [id]. *)
Definition is_child (scope : Loc) (id : string) (r : Resource) : bool :=
  Nat.eqb (scope_of r) scope && String.eqb (id_of r) id.

(** The construct tree refuses a child without a name, and a second child
    with the name of another one of the same scope. *)
Definition node_refusal (scope : Loc) (id : string) (w : World) : option string :=
  if String.eqb id "" then Some "Only root constructs may have an empty name"
  else
    match heap w !! scope with
    | None => Some "The scope is not a construct"
    | Some _ =>
        if existsb (is_child scope id) (heap w)
        then Some "There is already a Construct with this name in the scope"
        else None
    end.

Section New.
Context `{Attributes}.

(** What the constructor of the class itself refuses.  A database instance
    selects the subnets of its placement in its network, which fails when
    there is none of that type, and then reads its engine, which fails on
    [undefined]. *)
Definition class_refusal (r : Resource) : option string :=
  match r with
  | DatabaseInstance _ _ props =>
      match subnetType (vpcSubnets props), privateSubnets (vpc props) with
      | PRIVATE, [] => Some "There are no 'Private' subnet groups in this VPC"
      | _, _ =>
          match engine props with
          | None => Some "TypeError: Cannot read property of undefined"
          | Some _ => None
          end
      end
  | _ => None
  end.

(** [new C(scope, id, props)]: unless it is refused, the object is added to
    the store. *)
Definition new (r : Resource) : M Loc :=
  fun w =>
    match node_refusal (scope_of r) (id_of r) w with
    | Some error => Throw error
    | None =>
        match class_refusal r with
        | Some error => Throw error
        | None =>
            Normal (length (heap w),
                    {| heap := heap w ++ [r]; calls := calls w |})
        end
    end.

(** [new SecurityGroup(scope, id, {vpc})]: with [allowAllOutbound] at its
    default, the group is created with the rule that allows all outbound
    traffic. *)
Definition newSecurityGroup (scope : Loc) (id : string)
    (props : SecurityGroupProps) : M Loc :=
  new (SecurityGroup scope id props [(anyIpv4, allTraffic)]).

End New.

(** [securityGroup.addEgressRule(peer, port)] on a group that allows all
    outbound traffic: the SDK leaves the group as it is (and warns that the
    rule is ignored). *)
Definition addEgressRule (sg : Loc) (peer : Peer) (port : Port) : M unit :=
  fun w =>
    match heap w !! sg with
    | Some (SecurityGroup _ _ _ _) => Normal (tt, w)
    | _ => Throw "TypeError: addEgressRule is not a function"
    end.

(** A value the provider resolves after deployment. *)
Inductive ProviderQuery : Type :=
| getStackOutput (output : Loc)
| getCloudFormationReference (token : string).

(** Modelled from the spec: the declaration of [ConstructInterface] is not
    among the sources.  A construct exposes named outputs, commands and
    references; each of the three methods may be missing from a class
    ([None]), as the two implementations show. *)
Record ConstructInterface : Type := {
  outputs : option (gmap string ProviderQuery);
  commands : option (gmap string unit);
  references : option (gmap string ProviderQuery);
}.

(** The names a construct exposes through a method: none when the class
    does not have the method. *)
Definition exposed {A} (method : option (gmap string A)) : gset string :=
  match method with
  | Some record => dom record
  | None => ∅
  end.

(** Modelled from the spec: the provider class ([AwsProvider]) is not among
    the sources.  The constructs use its stack, the stack's name, its
    network context, if it has one, and the hook [setVpcConfig] that
    publishes the shared network settings; the calls are recorded in the
    world, in order.  A database needs a network placement: without a
    network context [enableVpc()] fails, and no resource is declared. *)
Record AwsProvider : Type := {
  stack : Loc;
  stackName : string;
  vpcOfProvider : option Loc;
}.

Definition enableVpc (provider : AwsProvider) : M Loc :=
  bind (call EnableVpc) (fun _ w =>
    match vpcOfProvider provider with
    | None => Throw "MissingDependencyError: no network context"
    | Some network =>
        match heap w !! network with
        | Some (Vpc _ _ _) => Normal (network, w)
        | _ => Throw "MissingDependencyError: no network context"
        end
    end).

Definition setVpcConfig (provider : AwsProvider)
    (securityGroups subnets : list string) : M unit :=
  call (SetVpcConfig securityGroups subnets).

End Cdk.

Notation "'let*' x := m 'in' k" := (Cdk.bind m (fun x => k))
  (at level 10, x name, m at level 100, k at level 200, only parsing).

(** [a ?? b]: [b] when [a] is [undefined], here [None]. *)
Definition nullish {A} (a : option A) (b : A) : A :=
  match a with
  | Some x => x
  | None => b
  end.
Infix "??" := nullish (at level 45, left associativity).

(** ** The database construct ([src/constructs/Database.ts]) *)
Module Database.

Definition SCHEMA : ObjectSchema :=
  {| properties :=
       [ ("name",
          {| type_ := Some TyString; pattern := Some "^[\w\d-_]*$/";
             minLength := None; enum := None; minimum := None; const := None |});
         ("password",
          {| type_ := Some TyString; pattern := None;
             minLength := Some 8%nat; enum := None; minimum := None;
             const := None |});
         ("engine",
          {| type_ := Some TyString; pattern := None; minLength := None;
             enum := Some [JString "mysql"; JString "mariadb"; JString "postgres"];
             minimum := None; const := None |});
         ("instanceType",
          {| type_ := Some TyString; pattern := None; minLength := None;
             enum := None; minimum := None; const := None |});
         ("storageSize",
          {| type_ := Some TyInteger; pattern := None; minLength := None;
             enum := None; minimum := Some (inject_Z 20); const := None |}) ];
     additionalProperties := false;
     required := ["password"] |}.

(** [FromSchema<typeof SCHEMA>].  The engine is one of three literals for
    the type checker and a string when the program runs; it is kept as a
    string, so that a value the schema would have refused can be given. *)
Record Configuration : Type := {
  name : option string;
  password : string;
  engine : option string;
  instanceType : option string;
  storageSize : option Z;
}.

(** The configuration object seen through its type. *)
Definition string_field (o : gmap string json) (k : string) : option string :=
  match o !! k with
  | Some (JString s) => Some s
  | _ => None
  end.

Definition integer_field (o : gmap string json) (k : string) : option Z :=
  match o !! k with
  | Some (JNumber q) => Some (Qnum q / Zpos (Qden q))
  | _ => None
  end.

Definition asConfiguration (o : gmap string json) : option Configuration :=
  match string_field o "password" with
  | Some p =>
      Some {| name := string_field o "name";
              password := p;
              engine := string_field o "engine";
              instanceType := string_field o "instanceType";
              storageSize := integer_field o "storageSize" |}
  | None => None
  end.

(** [s.replace(/c/g, "")] for a one-character pattern. *)
Fixpoint remove_all (c : ascii) (s : string) : string :=
  match s with
  | EmptyString => EmptyString
  | String x s' =>
      if Ascii.eqb x c then remove_all c s' else String x (remove_all c s')
  end.

Definition safeDbName (name : string) : string :=
  remove_all "_" (remove_all "-" name).

Definition getEngine (configuration : Configuration) : string :=
  engine configuration ?? "mysql".

(** The switch has no default case: for another value the function ends
    without a return statement and the call evaluates to [undefined]. *)
Definition getEngineVersion (configuration : Configuration)
  : Completion (option Cdk.IInstanceEngine) :=
  let e := getEngine configuration in
  if String.eqb e "mysql" then
    Normal (Some (Cdk.mysql (Cdk.EngineVersion_of "8.0.23" "8.0")))
  else if String.eqb e "mariadb" then
    Normal (Some (Cdk.mariaDb (Cdk.EngineVersion_of "10.5.8" "10.5")))
  else if String.eqb e "postgres" then
    Normal (Some (Cdk.postgres (Cdk.EngineVersion_of "13.2" "13")))
  else Normal None.

(** The fields of a [Database] object. *)
Record t : Type := {
  this : Cdk.Loc;
  dbInstance : Cdk.Loc;
  dbHostOutput : Cdk.Loc;
}.

Section Constructor.
Context `{Cdk.Attributes}.

Definition constructor (scope : Cdk.Loc) (id : string)
    (configuration : Configuration) (provider : Cdk.AwsProvider)
  : Cdk.M t :=
  let* this := Cdk.new (Cdk.Construct scope id) in
  let* vpc := Cdk.enableVpc provider in
  let* engine := Cdk.lift (getEngineVersion configuration) in
  let* dbInstance :=
    Cdk.new (Cdk.DatabaseInstance this "Instance"
      {| Cdk.instanceIdentifier :=
           name configuration ?? (Cdk.stackName provider +:+ "-" +:+ id);
         Cdk.databaseName :=
           safeDbName (name configuration
                       ?? (Cdk.stackName provider +:+ "-" +:+ id));
         Cdk.engine := engine;
         Cdk.instanceType :=
           {| Cdk.instanceTypeIdentifier :=
                instanceType configuration ?? "t3.micro" |};
         Cdk.credentials :=
           Cdk.fromPassword "admin" (Cdk.plainText (password configuration));
         Cdk.vpc := vpc;
         Cdk.vpcSubnets := {| Cdk.subnetType := Cdk.PRIVATE |};
         Cdk.allocatedStorage := storageSize configuration ?? 20;
         Cdk.backupRetention := Cdk.days 7;
         Cdk.cloudwatchLogsExports := [""];
         Cdk.cloudwatchLogsRetention := Cdk.ONE_WEEK |}) in
  let* dbHostOutput :=
    Cdk.new (Cdk.CfnOutput this "DbHost"
      {| Cdk.value := Cdk.instanceEndpoint_hostname dbInstance |}) in
  Cdk.ret {| this := this; dbInstance := dbInstance;
             dbHostOutput := dbHostOutput |}.

(** The properties the construction declares the database instance
    with, read back from the store. *)
Definition commands (db : t) : gmap string unit := ∅.

Definition outputs (db : t) : gmap string Cdk.ProviderQuery :=
  {[ "host" := Cdk.getStackOutput (dbHostOutput db) ]}.

Definition references (db : t) : gmap string Cdk.ProviderQuery :=
  {[ "host" := Cdk.getCloudFormationReference
                 (Cdk.instanceEndpoint_hostname (dbInstance db));
     "port" := Cdk.getCloudFormationReference
                 (Cdk.instanceEndpoint_port (dbInstance db)) ]}.

Definition interface (db : t) : Cdk.ConstructInterface :=
  {| Cdk.outputs := Some (outputs db);
     Cdk.commands := Some (commands db);
     Cdk.references := Some (references db) |}.

Definition declaration (scope : Cdk.Loc) (id : string)
    (configuration : Configuration) (provider : Cdk.AwsProvider)
    (w : Cdk.World) : option Cdk.DatabaseInstanceProps :=
  match constructor scope id configuration provider w with
  | Normal (db, w') =>
      match Cdk.heap w' !! dbInstance db with
      | Some (Cdk.DatabaseInstance _ _ props) => Some props
      | _ => None
      end
  | Throw _ => None
  end.

End Constructor.

End Database.

(** ** The network construct *)
Module Vpc.

Definition VPC_DEFINITION : ObjectSchema :=
  {| properties :=
       [ ("type",
          {| type_ := None; pattern := None; minLength := None; enum := None;
             minimum := None; const := Some (JString "vpc") |}) ];
     additionalProperties := false;
     required := [] |}.

(** [FromSchema<typeof VPC_DEFINITION>]. *)
Record Configuration : Type := {
  type : option string;
}.

(** The fields of a [Vpc] object besides those of the SDK's network. *)
Record t : Type := {
  this : Cdk.Loc;
  appSecurityGroup : Cdk.Loc;
  provider : Cdk.AwsProvider;
}.

Section Constructor.
Context `{Cdk.Attributes}.

Definition constructor (scope : Cdk.Loc) (id : string)
    (configuration : Configuration) (provider : Cdk.AwsProvider)
  : Cdk.M t :=
  let* this := Cdk.new (Cdk.Vpc scope id {| Cdk.maxAzs := 2 |}) in
  let* appSecurityGroup :=
    Cdk.newSecurityGroup this "AppSecurityGroup" {| Cdk.sg_vpc := this |} in
  let* _ := Cdk.addEgressRule appSecurityGroup Cdk.anyIpv4 Cdk.allTraffic in
  let* _ := Cdk.setVpcConfig provider
              [Cdk.securityGroupName appSecurityGroup]
              (Cdk.subnetId <$> Cdk.privateSubnets this) in
  Cdk.ret {| this := this; appSecurityGroup := appSecurityGroup;
             provider := provider |}.

Definition create (provider : Cdk.AwsProvider) (id : string)
    (configuration : Configuration) : Cdk.M t :=
  constructor (Cdk.stack provider) id configuration provider.

End Constructor.

(** [outputs()] returns the empty record. *)
Definition outputs (vpc : t) : gmap string Cdk.ProviderQuery := ∅.

(** The class has neither [commands] nor [references]. *)
Definition interface (vpc : t) : Cdk.ConstructInterface :=
  {| Cdk.outputs := Some (outputs vpc);
     Cdk.commands := None;
     Cdk.references := None |}.

End Vpc.

(** * Reference values

    What the specification writes, next to what the source declares, and
    the sample values of the concrete runs. *)
Module Reference.

(** The pattern the schema of the database construct declares. *)
Definition source_pattern : string := "^[\w\d-_]*$/".

(** The pattern as the specification writes it. *)
Definition spec_pattern : string := "^[\w\d_-]*$".

Definition name_class : Regex.Atom :=
  Regex.AClass [Regex.CAWord; Regex.CADigit; Regex.CAChar "-"; Regex.CAChar "_"].

(** The engine table of the specification: engine, full version, major
    version. *)
Definition spec_engine_table : list (string * (string * string)) :=
  [ ("mysql", ("8.0.23", "8.0"));
    ("mariadb", ("10.5.8", "10.5"));
    ("postgres", ("13.2", "13")) ].

Fixpoint table_row (table : list (string * (string * string))) (e : string)
  : option (string * string) :=
  match table with
  | [] => None
  | (k, row) :: rest => if String.eqb k e then Some row else table_row rest e
  end.

Definition engines : list string := ["mysql"; "mariadb"; "postgres"].

(** The engine a configuration object asks for: the string under [engine],
    mysql when there is none. *)
Definition configured_engine (o : gmap string json) : string :=
  match o !! "engine" with
  | Some (JString e) => e
  | _ => "mysql"
  end.

(** Every object of the store was created under an object of the store. *)
Definition well_formed (w : Cdk.World) : Prop :=
  forall l r, Cdk.heap w !! l = Some r ->
              (Cdk.scope_of r < length (Cdk.heap w))%nat.

(** A construct can be created under [scope] with the name [id]: the name
    is not empty, the scope is there, and it has no child of that name. *)
Definition fresh (w : Cdk.World) (scope : Cdk.Loc) (id : string) : Prop :=
  id <> ""
  /\ is_Some (Cdk.heap w !! scope)
  /\ forall l r, Cdk.heap w !! l = Some r -> Cdk.scope_of r = scope ->
                 Cdk.id_of r <> id.

(** The properties a database instance is expected to be declared with, for
    a configuration, written field by field: the defaults are mysql's engine
    being [e], t3.micro, 20 of storage, 7 days of backups, one week of
    logs. *)
Definition expected_props (configuration : Database.Configuration)
    (provider : Cdk.AwsProvider) (id : string) (network : Cdk.Loc)
    (e : Cdk.IInstanceEngine) : Cdk.DatabaseInstanceProps :=
  let identifier :=
    match Database.name configuration with
    | Some given => given
    | None => Cdk.stackName provider +:+ "-" +:+ id
    end in
  {| Cdk.instanceIdentifier := identifier;
     Cdk.databaseName := Database.safeDbName identifier;
     Cdk.engine := Some e;
     Cdk.instanceType :=
       {| Cdk.instanceTypeIdentifier :=
            match Database.instanceType configuration with
            | Some given => given
            | None => "t3.micro"
            end |};
     Cdk.credentials :=
       Cdk.fromPassword "admin" (Cdk.plainText (Database.password configuration));
     Cdk.vpc := network;
     Cdk.vpcSubnets := {| Cdk.subnetType := Cdk.PRIVATE |};
     Cdk.allocatedStorage :=
       match Database.storageSize configuration with
       | Some given => given
       | None => 20
       end;
     Cdk.backupRetention := Cdk.days 7;
     Cdk.cloudwatchLogsExports := [""];
     Cdk.cloudwatchLogsRetention := Cdk.ONE_WEEK |}.

(** The provider has a network context: a network of the store, with
    private subnets. *)
Definition has_network `{Cdk.Attributes}
    (w : Cdk.World) (provider : Cdk.AwsProvider) : Prop :=
  exists network,
    Cdk.vpcOfProvider provider = Some network
    /\ (exists scope id props,
          Cdk.heap w !! network = Some (Cdk.Vpc scope id props))
    /\ Cdk.privateSubnets network <> [].

End Reference.

Module Sample.

(** Attribute tokens, the same for every object. *)
Definition sample_attributes : Cdk.Attributes :=
  {| Cdk.securityGroupName l := "sg-token";
     Cdk.privateSubnets l :=
       [ {| Cdk.subnetId := "subnet-a" |}; {| Cdk.subnetId := "subnet-b" |} ];
     Cdk.instanceEndpoint_hostname l := "host-token";
     Cdk.instanceEndpoint_port l := "port-token" |}.

(** A provider whose network context is the network of the sample store. *)
Definition sample_provider : Cdk.AwsProvider :=
  {| Cdk.stack := 0%nat; Cdk.stackName := "app-dev"; Cdk.vpcOfProvider := Some 1%nat |}.

(** A store with the stack, which is the root and its own scope, and a
    network under it. *)
Definition sample_world : Cdk.World :=
  {| Cdk.heap := [Cdk.Construct 0%nat "stack";
                  Cdk.Vpc 0%nat "Vpc" {| Cdk.maxAzs := 2 |}];
     Cdk.calls := [] |}.

(** The configuration [{password: "longpass1"}]. *)
Definition password_only : gmap string json :=
  {[ "password" := JString "longpass1" ]}.

(** A configuration whose engine is outside the enumeration. *)
Definition oracle_configuration : Database.Configuration :=
  {| Database.name := None; Database.password := "longpass1";
     Database.engine := Some "oracle"; Database.instanceType := None;
     Database.storageSize := None |}.

Definition postgres_object : gmap string json :=
  <["engine" := JString "postgres"]> password_only.

Definition empty_name_configuration : Database.Configuration :=
  {| Database.name := Some ""; Database.password := "longpass1";
     Database.engine := None; Database.instanceType := None;
     Database.storageSize := None |}.

(** A configuration object with every property but [name]. *)
Definition full_object : gmap string json :=
  <["storageSize" := JNumber (inject_Z 50)]>
    (<["instanceType" := JString "t3.small"]> postgres_object).

(** A configuration without name, and one with a name. *)
Definition unnamed_configuration : Database.Configuration :=
  {| Database.name := None; Database.password := "longpass1";
     Database.engine := Some "mariadb"; Database.instanceType := None;
     Database.storageSize := Some 50 |}.

Definition named_configuration : Database.Configuration :=
  {| Database.name := Some "my-app_db-1"; Database.password := "longpass1";
     Database.engine := None; Database.instanceType := None;
     Database.storageSize := None |}.

(** A password of two characters in eight bytes, and one of eight
    characters in ten bytes. *)
Definition two_emoji : string := "😀😀".
Definition eight_letters : string := "pässwörd".


End Sample.

(** * Properties *)

(** Membership in a list that is written out. *)
Ltac in_list :=
  first [apply list_elem_of_here | apply list_elem_of_further; in_list].


(** ** The [name] pattern *)
Module NamePattern.
Import Reference.

Lemma parse_source_pattern :
  Regex.parse source_pattern
  = Some [Regex.TStart; Regex.TStar name_class; Regex.TEnd;
          Regex.TAtom (Regex.AChar "/")].
Proof. reflexivity. Qed.

Lemma parse_spec_pattern :
  Regex.parse spec_pattern
  = Some [Regex.TStart;
          Regex.TStar (Regex.AClass [Regex.CAWord; Regex.CADigit;
                                     Regex.CAChar "_"; Regex.CAChar "-"]);
          Regex.TEnd].
Proof. reflexivity. Qed.

(** After [$] the input is over, so a character can no longer match. *)
Lemma end_then_atom a ts b s :
  Regex.match_terms (Regex.TEnd :: Regex.TAtom a :: ts) b s = false.
Proof. destruct s; reflexivity. Qed.

Lemma star_end_then_atom a c ts s : forall b,
  Regex.match_terms (Regex.TStar a :: Regex.TEnd :: Regex.TAtom c :: ts) b s
  = false.
Proof.
  induction s as [|x s IH]; intros b.
  - reflexivity.
  - change (Regex.atom_matches a x
            && Regex.match_terms
                 (Regex.TStar a :: Regex.TEnd :: Regex.TAtom c :: ts) false s
            || Regex.match_terms (Regex.TEnd :: Regex.TAtom c :: ts) b
                 (String x s) = false).
    rewrite IH, end_then_atom, andb_false_r. reflexivity.
Qed.

Lemma search_source_pattern s : forall b,
  Regex.search [Regex.TStart; Regex.TStar name_class; Regex.TEnd;
                Regex.TAtom (Regex.AChar "/")] b s = false.
Proof.
  induction s as [|x s IH]; intros b.
  - destruct b; reflexivity.
  - cbn [Regex.search]. rewrite IH, orb_false_r.
    cbn [Regex.match_terms]. fold name_class.
    change (b && Regex.match_terms
                   [Regex.TStar name_class; Regex.TEnd;
                    Regex.TAtom (Regex.AChar "/")] b (String x s) = false).
    rewrite star_end_then_atom. apply andb_false_r.
Qed.

Lemma test_source_pattern s : Regex.test source_pattern s = Some false.
Proof.
  unfold Regex.test. rewrite parse_source_pattern.
  f_equal. apply search_source_pattern.
Qed.

Lemma source_pattern_rejects s : pattern_ok source_pattern (JString s) = false.
Proof. unfold pattern_ok. rewrite test_source_pattern. reflexivity. Qed.

(** The parser on two other class shapes: a range, and an escaped hyphen. *)
Example test_range : Regex.test "^[a-c]*x$" "abcax" = Some true.
Proof. reflexivity. Qed.

Example test_unanchored : Regex.test "[\-_]" "my db" = Some false.
Proof. reflexivity. Qed.

End NamePattern.

(** ** Validation against an object schema *)
Module SchemaFacts.

Lemma bind_nil_iff {A B} (f : A -> list B) (l : list A) :
  l ≫= f = [] <-> forall x, x ∈ l -> f x = [].
Proof.
  induction l as [|a l IH]; cbn.
  - split; [intros _ x Hx; inversion Hx | reflexivity].
  - rewrite app_nil, IH. split.
    + intros [Ha Hl] x Hx. apply elem_of_cons in Hx as [->|Hx]; auto.
    + intros Hall. split; [apply Hall; left | intros x Hx; apply Hall; right; exact Hx].
Qed.

Lemma check_nil ok k kw : check ok k kw = [] <-> ok = true.
Proof. destruct ok; cbn; split; congruence. Qed.

Lemma and_iff (P P' R R' : Prop) :
  (P <-> P') -> (R <-> R') -> (P /\ R <-> P' /\ R').
Proof. tauto. Qed.

Lemma valid_nil sch o : valid sch o = true <-> errors sch o = [].
Proof. unfold valid. destruct (errors sch o); split; congruence. Qed.

(** An object is valid when its declared properties pass their keywords,
    it has no undeclared property (for a closed schema) and it has the
    required ones. *)
Lemma valid_iff sch (o : gmap string json) :
  valid sch o = true <->
    (forall k ps v, (k, ps) ∈ properties sch -> o !! k = Some v ->
                    property_errors k ps v = [])
    /\ (additionalProperties sch = false ->
        forall k, is_Some (o !! k) -> k ∈ declared sch)
    /\ (forall k, k ∈ required sch -> is_Some (o !! k)).
Proof.
  rewrite valid_nil. unfold errors. rewrite !app_nil, !bind_nil_iff.
  apply and_iff; [|apply and_iff].
  - split.
    + intros Hall k ps v Hin Hv. specialize (Hall _ Hin). cbn in Hall.
      rewrite Hv in Hall. exact Hall.
    + intros Hall [k ps] Hin. destruct (o !! k) as [v|] eqn:Hv; [|reflexivity].
      eapply Hall; eauto.
  - destruct (additionalProperties sch).
    + split; [intros _ Hf; discriminate | reflexivity].
    + rewrite bind_nil_iff. split.
      * intros Hall _ k Hk. apply elem_of_dom, elem_of_elements in Hk.
        specialize (Hall _ Hk). apply check_nil, bool_decide_eq_true in Hall.
        exact Hall.
      * intros Hall k Hk. apply check_nil, bool_decide_eq_true.
        apply Hall; [reflexivity|]. apply elem_of_dom, elem_of_elements, Hk.
  - split.
    + intros Hall k Hk. specialize (Hall _ Hk).
      apply check_nil, bool_decide_eq_true in Hall. exact Hall.
    + intros Hall k Hk. apply check_nil, bool_decide_eq_true. auto.
Qed.

(** Setting a declared property to a value that passes its keywords keeps
    a valid object valid. *)
Lemma valid_insert sch (o : gmap string json) k v :
  valid sch o = true ->
  k ∈ declared sch ->
  (forall ps, (k, ps) ∈ properties sch -> property_errors k ps v = []) ->
  valid sch (<[k := v]> o) = true.
Proof.
  rewrite !valid_iff. intros (Hprops & Hadd & Hreq) Hk Hv. split; [|split].
  - intros k' ps v' Hin. destruct (decide (k = k')) as [<-|Hne].
    + rewrite lookup_insert_eq. intros [= <-]. auto.
    + rewrite lookup_insert_ne by exact Hne. eauto.
  - intros Hclosed k'. destruct (decide (k = k')) as [<-|Hne]; [auto|].
    rewrite lookup_insert_ne by exact Hne. auto.
  - intros k' Hin. destruct (decide (k = k')) as [<-|Hne].
    + rewrite lookup_insert_eq. eauto.
    + rewrite lookup_insert_ne by exact Hne. auto.
Qed.

End SchemaFacts.

(** ** The construct tree *)
Module TreeFacts.

Lemma existsb_false_lookup {A} (f : A -> bool) (l : list A) :
  (forall i x, l !! i = Some x -> f x = false) -> existsb f l = false.
Proof.
  induction l as [|a l IH]; intros Hall; [reflexivity|].
  cbn. rewrite (Hall 0%nat a eq_refl). cbn.
  apply IH. intros i x Hx. exact (Hall (S i) x Hx).
Qed.

Lemma existsb_true_lookup {A} (f : A -> bool) (l : list A) :
  existsb f l = true -> exists i x, l !! i = Some x /\ f x = true.
Proof.
  induction l as [|a l IH]; cbn; [discriminate|].
  destruct (f a) eqn:Hfa; cbn.
  - intros _. exists 0%nat, a. auto.
  - intros Hl. destruct (IH Hl) as (i & x & Hx & Hfx). exists (S i), x. auto.
Qed.

Lemma is_child_true scope id r :
  Cdk.is_child scope id r = true <-> Cdk.scope_of r = scope /\ Cdk.id_of r = id.
Proof.
  unfold Cdk.is_child. rewrite andb_true_iff, Nat.eqb_eq, String.eqb_eq. tauto.
Qed.

Lemma is_child_false scope id r :
  Cdk.is_child scope id r = false <-> ~ (Cdk.scope_of r = scope /\ Cdk.id_of r = id).
Proof.
  rewrite <- is_child_true. destruct (Cdk.is_child scope id r); split; congruence.
Qed.

(** The tree accepts a child exactly when the name is fresh under the
    scope. *)
Lemma node_refusal_None w scope id :
  Cdk.node_refusal scope id w = None <-> Reference.fresh w scope id.
Proof.
  unfold Cdk.node_refusal, Reference.fresh. split.
  - destruct (String.eqb id "") eqn:Hid; [discriminate|].
    apply String.eqb_neq in Hid.
    destruct (Cdk.heap w !! scope) as [parent|] eqn:Hscope; [|discriminate].
    destruct (existsb (Cdk.is_child scope id) (Cdk.heap w)) eqn:Hdup; [discriminate|].
    intros _. split; [exact Hid|]. split; [eauto|].
    intros l r Hr Hs Hi.
    assert (Htrue : existsb (Cdk.is_child scope id) (Cdk.heap w) = true).
    { apply existsb_exists. exists r. split.
      - apply list_elem_of_In, list_elem_of_lookup. eauto.
      - apply is_child_true. auto. }
    congruence.
  - intros (Hid & [parent Hscope] & Hnone).
    apply String.eqb_neq in Hid. rewrite Hid, Hscope.
    rewrite existsb_false_lookup; [reflexivity|].
    intros i x Hx. apply is_child_false. intros [Hs Hi]. exact (Hnone i x Hx Hs Hi).
Qed.

(** In a well-formed store no object is yet the child of a location that
    is still to be filled. *)
Lemma fresh_under_new w created scope id calls :
  Reference.well_formed w ->
  (length (Cdk.heap w) <= scope)%nat ->
  id <> "" ->
  is_Some ((Cdk.heap w ++ created) !! scope) ->
  existsb (Cdk.is_child scope id) created = false ->
  Reference.fresh {| Cdk.heap := Cdk.heap w ++ created; Cdk.calls := calls |} scope id.
Proof.
  intros Hwf Hge Hid Hscope Hcreated. split; [exact Hid|]. split; [exact Hscope|].
  cbn. intros l r Hr Hs Hi.
  apply lookup_app_Some in Hr as [Hold|[_ Hnew]].
  - apply Hwf in Hold. lia.
  - assert (Htrue : existsb (Cdk.is_child scope id) created = true).
    { apply existsb_exists. exists r. split.
      - apply list_elem_of_In, list_elem_of_lookup. eauto.
      - apply is_child_true. auto. }
    congruence.
Qed.

Section New.
Context `{Cdk.Attributes}.

Lemma new_fresh r w :
  Reference.fresh w (Cdk.scope_of r) (Cdk.id_of r) ->
  Cdk.class_refusal r = None ->
  Cdk.new r w
  = Normal (length (Cdk.heap w),
            {| Cdk.heap := Cdk.heap w ++ [r]; Cdk.calls := Cdk.calls w |}).
Proof.
  intros Hfresh Hclass. unfold Cdk.new.
  rewrite (proj2 (node_refusal_None _ _ _) Hfresh), Hclass. reflexivity.
Qed.

Lemma new_Normal r w l w' :
  Cdk.new r w = Normal (l, w') ->
  Reference.fresh w (Cdk.scope_of r) (Cdk.id_of r)
  /\ Cdk.class_refusal r = None.
Proof.
  unfold Cdk.new.
  destruct (Cdk.node_refusal (Cdk.scope_of r) (Cdk.id_of r) w) eqn:Hnode; [discriminate|].
  destruct (Cdk.class_refusal r) eqn:Hclass; [discriminate|].
  intros _. split; [apply node_refusal_None; exact Hnode | reflexivity].
Qed.

End New.

Lemma scope_below w scope :
  is_Some (Cdk.heap w !! scope) -> (scope < length (Cdk.heap w))%nat.
Proof. intros [r Hr]. eapply lookup_lt_Some. exact Hr. Qed.

Lemma eqb_below (scope n : nat) : (scope < n)%nat -> Nat.eqb scope n = false.
Proof. intros Hlt. apply Nat.eqb_neq. lia. Qed.

End TreeFacts.

(** ** The construction of the network *)
Module VpcFacts.

Section Construction.
Context `{Cdk.Attributes}.

(** In a well-formed store and under a fresh name, the construction adds
    the network, one security group inside it, and one call to the
    provider's record. *)
Lemma vpc_constructor_eq scope id configuration provider w :
  Reference.well_formed w ->
  Reference.fresh w scope id ->
  Vpc.constructor scope id configuration provider w
  = Normal
      ({| Vpc.this := length (Cdk.heap w);
          Vpc.appSecurityGroup := S (length (Cdk.heap w));
          Vpc.provider := provider |},
       {| Cdk.heap :=
            Cdk.heap w
            ++ [ Cdk.Vpc scope id {| Cdk.maxAzs := 2 |};
                 Cdk.SecurityGroup (length (Cdk.heap w)) "AppSecurityGroup"
                   {| Cdk.sg_vpc := length (Cdk.heap w) |}
                   [(Cdk.anyIpv4, Cdk.allTraffic)] ];
          Cdk.calls :=
            Cdk.calls w
            ++ [ Cdk.SetVpcConfig
                   [Cdk.securityGroupName (S (length (Cdk.heap w)))]
                   (Cdk.subnetId <$> Cdk.privateSubnets (length (Cdk.heap w))) ] |}).
Proof.
  intros Hwf Hfresh.
  pose proof (TreeFacts.scope_below w scope (proj1 (proj2 Hfresh))) as Hscope.
  unfold Vpc.constructor, Cdk.newSecurityGroup, Cdk.bind.
  rewrite (TreeFacts.new_fresh (Cdk.Vpc scope id _) w Hfresh eq_refl).
  rewrite TreeFacts.new_fresh; cycle 1.
  { cbn [Cdk.scope_of Cdk.id_of].
    apply TreeFacts.fresh_under_new; [exact Hwf|lia|discriminate| |].
    - rewrite list_lookup_middle by reflexivity. eauto.
    - cbn. unfold Cdk.is_child. cbn [Cdk.scope_of].
      rewrite (TreeFacts.eqb_below _ _ Hscope). reflexivity. }
  { reflexivity. }
  cbn [Cdk.heap Cdk.calls]. unfold Cdk.addEgressRule. cbn [Cdk.heap].
  rewrite length_app. cbn [length]. rewrite Nat.add_1_r.
  rewrite <- app_assoc. cbn [app].
  rewrite lookup_app_r by lia.
  replace (S (length (Cdk.heap w)) - length (Cdk.heap w))%nat with 1%nat by lia.
  cbn. reflexivity.
Qed.

End Construction.

(** The schema of the network construct accepts the empty object and the
    type discriminator, and nothing else. *)
Example vpc_schema_closed :
  valid Vpc.VPC_DEFINITION ∅ = true
  /\ valid Vpc.VPC_DEFINITION {[ "type" := JString "vpc" ]} = true
  /\ valid Vpc.VPC_DEFINITION {[ "type" := JString "database" ]} = false
  /\ valid Vpc.VPC_DEFINITION {[ "maxAzs" := JNumber (inject_Z 3) ]} = false.
Proof. repeat split; vm_compute; reflexivity. Qed.

End VpcFacts.
(** ** The declaration of the database instance *)
Module DatabaseFacts.
Import Database Reference.

Section Declaration.
Context `{Cdk.Attributes}.

(** In a well-formed store, under a fresh name, with a network context and
    an engine, the construction adds the construct, the instance and the
    output, and asks the provider for the network once. *)
Lemma database_constructor_eq scope id configuration provider w network e :
  well_formed w ->
  fresh w scope id ->
  Cdk.vpcOfProvider provider = Some network ->
  (exists s i p, Cdk.heap w !! network = Some (Cdk.Vpc s i p)) ->
  Cdk.privateSubnets network <> [] ->
  getEngineVersion configuration = Normal (Some e) ->
  constructor scope id configuration provider w
  = Normal
      ({| this := length (Cdk.heap w);
          dbInstance := S (length (Cdk.heap w));
          dbHostOutput := S (S (length (Cdk.heap w))) |},
       {| Cdk.heap :=
            Cdk.heap w
            ++ [ Cdk.Construct scope id;
                 Cdk.DatabaseInstance (length (Cdk.heap w)) "Instance"
                   (expected_props configuration provider id network e);
                 Cdk.CfnOutput (length (Cdk.heap w)) "DbHost"
                   {| Cdk.value :=
                        Cdk.instanceEndpoint_hostname (S (length (Cdk.heap w))) |} ];
          Cdk.calls := Cdk.calls w ++ [Cdk.EnableVpc] |}).
Proof.
  intros Hwf Hfresh Hprov (s & i & p & Hnet) Hsub He.
  pose proof (TreeFacts.scope_below w scope (proj1 (proj2 Hfresh))) as Hscope.
  unfold constructor, Cdk.bind at 1.
  rewrite (TreeFacts.new_fresh (Cdk.Construct scope id) w Hfresh eq_refl).
  unfold Cdk.bind at 1. unfold Cdk.enableVpc, Cdk.bind at 1. unfold Cdk.call.
  cbn [Cdk.heap Cdk.calls]. rewrite Hprov.
  rewrite (lookup_app_l_Some _ _ _ _ Hnet).
  unfold Cdk.bind at 1. unfold Cdk.lift. rewrite He.
  unfold Cdk.bind at 1.
  rewrite TreeFacts.new_fresh; cycle 1.
  { cbn [Cdk.scope_of Cdk.id_of].
    apply TreeFacts.fresh_under_new; [exact Hwf|lia|discriminate| |].
    - rewrite list_lookup_middle by reflexivity. eauto.
    - cbn. unfold Cdk.is_child. cbn [Cdk.scope_of].
      rewrite (TreeFacts.eqb_below _ _ Hscope). reflexivity. }
  { cbn. destruct (Cdk.privateSubnets network); [contradiction|reflexivity]. }
  unfold Cdk.bind at 1. cbn [Cdk.heap Cdk.calls].
  rewrite <- app_assoc. cbn [app].
  rewrite TreeFacts.new_fresh; cycle 1.
  { cbn [Cdk.scope_of Cdk.id_of].
    apply (TreeFacts.fresh_under_new w [_; _]); [exact Hwf|lia|discriminate| |].
    - rewrite list_lookup_middle by reflexivity. eauto.
    - cbn. unfold Cdk.is_child. cbn [Cdk.scope_of Cdk.id_of].
      rewrite (TreeFacts.eqb_below _ _ Hscope), Nat.eqb_refl. reflexivity. }
  { reflexivity. }
  unfold Cdk.ret. cbn [Cdk.heap Cdk.calls].
  rewrite <- app_assoc. cbn [app].
  rewrite !length_app. cbn [length].
  replace (length (Cdk.heap w) + 1)%nat with (S (length (Cdk.heap w))) by lia.
  replace (length (Cdk.heap w) + 2)%nat with (S (S (length (Cdk.heap w)))) by lia.
  unfold expected_props, nullish.
  reflexivity.
Qed.

Lemma declaration_eq scope id configuration provider w network e :
  well_formed w ->
  fresh w scope id ->
  Cdk.vpcOfProvider provider = Some network ->
  (exists s i p, Cdk.heap w !! network = Some (Cdk.Vpc s i p)) ->
  Cdk.privateSubnets network <> [] ->
  getEngineVersion configuration = Normal (Some e) ->
  declaration scope id configuration provider w
  = Some (expected_props configuration provider id network e).
Proof.
  intros Hwf Hfresh Hprov Hnet Hsub He. unfold declaration.
  rewrite (database_constructor_eq _ _ _ _ _ network e Hwf Hfresh Hprov Hnet Hsub He).
  cbn [dbInstance Cdk.heap].
  rewrite lookup_app_r by lia.
  replace (S (length (Cdk.heap w)) - length (Cdk.heap w))%nat with 1%nat by lia.
  reflexivity.
Qed.

(** When the construction succeeds, the name was fresh, the provider had a
    network with private subnets and the engine was one of the table. *)
Lemma constructor_Normal_inv scope id configuration provider w db w' :
  constructor scope id configuration provider w = Normal (db, w') ->
  fresh w scope id
  /\ exists network e,
       Cdk.vpcOfProvider provider = Some network
       /\ (exists s i p, Cdk.heap w !! network = Some (Cdk.Vpc s i p))
       /\ Cdk.privateSubnets network <> []
       /\ getEngineVersion configuration = Normal (Some e).
Proof.
  intros Hrun. unfold constructor in Hrun. unfold Cdk.bind at 1 in Hrun.
  destruct (Cdk.new (Cdk.Construct scope id) w) as [[l w1]|] eqn:Hnew;
    [|discriminate].
  destruct (TreeFacts.new_Normal _ _ _ _ Hnew) as [Hfresh _].
  cbn [Cdk.scope_of Cdk.id_of] in Hfresh. split; [exact Hfresh|].
  rewrite (TreeFacts.new_fresh (Cdk.Construct scope id) w Hfresh eq_refl) in Hnew.
  injection Hnew as <- <-.
  unfold Cdk.bind at 1 in Hrun. unfold Cdk.enableVpc, Cdk.bind at 1 in Hrun.
  unfold Cdk.call in Hrun. cbn [Cdk.heap Cdk.calls] in Hrun.
  destruct (Cdk.vpcOfProvider provider) as [network|] eqn:Hprov; [|discriminate].
  destruct ((Cdk.heap w ++ [Cdk.Construct scope id]) !! network) as [r|] eqn:Hnet;
    [|discriminate].
  destruct r as [| s i p | | |]; try discriminate.
  apply lookup_app_Some in Hnet as [Hnet|[_ Hnet]]; cycle 1.
  { destruct (network - length (Cdk.heap w))%nat as [|k]; cbn in Hnet; discriminate. }
  unfold Cdk.bind at 1 in Hrun. unfold Cdk.lift in Hrun.
  destruct (getEngineVersion configuration) as [oe|] eqn:He; [|discriminate].
  unfold Cdk.bind at 1 in Hrun.
  match type of Hrun with
  | context [Cdk.new ?r ?w2] =>
      destruct (Cdk.new r w2) as [[l2 w3]|] eqn:Hnew2; [|discriminate];
      destruct (TreeFacts.new_Normal _ _ _ _ Hnew2) as [_ Hclass]
  end.
  cbn in Hclass.
  destruct (Cdk.privateSubnets network) as [|subnet subnets] eqn:Hsub; [discriminate|].
  destruct oe as [e|]; [|discriminate].
  exists network, e. split; [reflexivity|]. split; [eauto|].
  split; [rewrite Hsub; discriminate | reflexivity].
Qed.

End Declaration.

(** A valid object gives an engine of the enumeration, or none. *)
Lemma valid_engine (o : gmap string json) :
  valid SCHEMA o = true ->
  string_field o "engine" ?? "mysql" ∈ engines.
Proof.
  intros Hvalid. apply SchemaFacts.valid_iff in Hvalid as (Hprops & _ & _).
  unfold string_field.
  destruct (o !! "engine") as [v|] eqn:Hv; [|cbn; in_list].
  pose proof (Hprops "engine" _ v ltac:(cbn; in_list) Hv) as Herr.
  unfold property_errors in Herr. cbn in Herr.
  apply app_nil in Herr as [Hty Herr]. apply app_nil in Herr as [Hen _].
  apply SchemaFacts.check_nil in Hty, Hen.
  destruct v; try discriminate Hty.
  cbn in Hen. rewrite orb_false_r in Hen. cbn.
  apply orb_true_iff in Hen as [Hen|Hen];
    [|apply orb_true_iff in Hen as [Hen|Hen]];
    apply String.eqb_eq in Hen; subst; in_list.
Qed.

(** A valid object has a string under [password], so it has the type of a
    configuration. *)
Lemma valid_asConfiguration (o : gmap string json) :
  valid SCHEMA o = true ->
  exists configuration,
    asConfiguration o = Some configuration
    /\ engine configuration = string_field o "engine".
Proof.
  intros Hvalid. apply SchemaFacts.valid_iff in Hvalid as (Hprops & _ & Hreq).
  destruct (Hreq "password" ltac:(cbn; in_list)) as [v Hv].
  pose proof (Hprops "password" _ v ltac:(cbn; in_list) Hv) as Herr.
  unfold property_errors in Herr. cbn in Herr.
  apply app_nil in Herr as [Hty _]. apply SchemaFacts.check_nil in Hty.
  destruct v; try discriminate Hty.
  unfold asConfiguration, string_field at 1. rewrite Hv.
  eexists. split; reflexivity.
Qed.

(** No object with a string under [name] is valid: the declared pattern
    matches nothing. *)
Lemma name_rejected (o : gmap string json) s :
  o !! "name" = Some (JString s) -> valid SCHEMA o = false.
Proof.
  intros Hname. destruct (valid SCHEMA o) eqn:Hvalid; [|reflexivity].
  apply SchemaFacts.valid_iff in Hvalid as (Hprops & _ & _).
  pose proof (Hprops "name" _ _ ltac:(cbn; in_list) Hname) as Herr.
  unfold property_errors in Herr. cbn - [pattern_ok] in Herr.
  rewrite app_nil_r in Herr. apply SchemaFacts.check_nil in Herr.
  pose proof (NamePattern.source_pattern_rejects s) as Hrej.
  unfold Reference.source_pattern in Hrej. congruence.
Qed.

Lemma declared_property k ps :
  (k, ps) ∈ properties SCHEMA ->
  (k, ps) = ("name", {| type_ := Some TyString; pattern := Some "^[\w\d-_]*$/";
                        minLength := None; enum := None; minimum := None;
                        const := None |})
  \/ (k, ps) = ("password", {| type_ := Some TyString; pattern := None;
                               minLength := Some 8%nat; enum := None;
                               minimum := None; const := None |})
  \/ (k, ps) = ("engine", {| type_ := Some TyString; pattern := None;
                             minLength := None;
                             enum := Some [JString "mysql"; JString "mariadb";
                                           JString "postgres"];
                             minimum := None; const := None |})
  \/ (k, ps) = ("instanceType", {| type_ := Some TyString; pattern := None;
                                   minLength := None; enum := None;
                                   minimum := None; const := None |})
  \/ (k, ps) = ("storageSize", {| type_ := Some TyInteger; pattern := None;
                                  minLength := None; enum := None;
                                  minimum := Some (inject_Z 20);
                                  const := None |}).
Proof.
  cbn. rewrite !elem_of_cons, elem_of_nil. tauto.
Qed.

Lemma remove_all_idem c s : remove_all c (remove_all c s) = remove_all c s.
Proof.
  induction s as [|x s IH]; cbn; [reflexivity|].
  destruct (Ascii.eqb x c) eqn:E; cbn; rewrite ?E; congruence.
Qed.

Lemma remove_all_comm c d s :
  remove_all c (remove_all d s) = remove_all d (remove_all c s).
Proof.
  induction s as [|x s IH]; cbn; [reflexivity|].
  destruct (Ascii.eqb x d) eqn:Ed, (Ascii.eqb x c) eqn:Ec; cbn;
    rewrite ?Ed, ?Ec; congruence.
Qed.

(** The database construct exposes two references and one output. *)
Lemma database_exposes `{Cdk.Attributes} (db : Database.t) :
  Cdk.exposed (Cdk.references (interface db)) = {[ "host"; "port" ]}
  /\ Cdk.exposed (Cdk.outputs (interface db)) = {[ "host" ]}
  /\ Cdk.exposed (Cdk.commands (interface db)) = ∅.
Proof.
  cbn. unfold references, outputs, commands.
  rewrite dom_insert_L, !dom_singleton_L, dom_empty_L. auto.
Qed.

End DatabaseFacts.
(** ** The engine mapping *)
Module EngineFacts.

Lemma mapping_cases configuration :
  (Database.getEngine configuration = "mysql"
   /\ Database.getEngineVersion configuration
      = Normal (Some (Cdk.mysql (Cdk.EngineVersion_of "8.0.23" "8.0"))))
  \/ (Database.getEngine configuration = "mariadb"
      /\ Database.getEngineVersion configuration
         = Normal (Some (Cdk.mariaDb (Cdk.EngineVersion_of "10.5.8" "10.5"))))
  \/ (Database.getEngine configuration = "postgres"
      /\ Database.getEngineVersion configuration
         = Normal (Some (Cdk.postgres (Cdk.EngineVersion_of "13.2" "13"))))
  \/ ((Database.getEngine configuration ∉ Reference.engines)
      /\ Database.getEngineVersion configuration = Normal None).
Proof.
  unfold Database.getEngineVersion. cbv zeta.
  destruct (String.eqb (Database.getEngine configuration) "mysql") eqn:E1;
    [apply String.eqb_eq in E1; auto|].
  destruct (String.eqb (Database.getEngine configuration) "mariadb") eqn:E2;
    [apply String.eqb_eq in E2; auto|].
  destruct (String.eqb (Database.getEngine configuration) "postgres") eqn:E3;
    [apply String.eqb_eq in E3; auto 6|].
  apply String.eqb_neq in E1, E2, E3.
  do 3 right. split; [|reflexivity].
  unfold Reference.engines. rewrite !not_elem_of_cons.
  repeat split; auto. apply not_elem_of_nil.
Qed.

Lemma mapped configuration :
  Database.getEngine configuration ∈ Reference.engines ->
  exists e, Database.getEngineVersion configuration = Normal (Some e).
Proof.
  intros Hin. destruct (mapping_cases configuration)
    as [[_ Hv]|[[_ Hv]|[[_ Hv]|[Hout _]]]]; eauto. contradiction.
Qed.


End EngineFacts.


(** ** The sample store *)
Module SampleFacts.
Import Reference Sample.

Lemma sample_well_formed : well_formed sample_world.
Proof.
  intros l r Hr. destruct l as [|[|l]]; cbn in Hr; try discriminate;
    injection Hr as <-; cbn; lia.
Qed.

Lemma sample_fresh id :
  id <> "" -> id <> "stack" -> id <> "Vpc" -> fresh sample_world 0%nat id.
Proof.
  intros Hempty Hstack Hvpc. split; [exact Hempty|]. split; [cbn; eauto|].
  intros l r Hr _. destruct l as [|[|l]]; cbn in Hr; try discriminate;
    injection Hr as <-; cbn; congruence.
Qed.

Lemma sample_fresh_db : fresh sample_world 0%nat "db".
Proof. apply sample_fresh; discriminate. Qed.

Lemma sample_has_network :
  @has_network sample_attributes sample_world sample_provider.
Proof.
  exists 1%nat. split; [reflexivity|]. split; [cbn; eauto|]. discriminate.
Qed.

End SampleFacts.

(** * The claims *)

(** C1.  The schema of the database construct refuses every string given as
    [name]: the declared pattern ends in [$/], a slash after the end of the
    input, and matches nothing.  The configuration with the name "my-db" is
    refused, although without the name it is accepted, and although the
    pattern of the specification matches "my-db". *)
Theorem name_pattern_refuses_every_name :
  (forall s, valid Database.SCHEMA (<["name" := JString s]> Sample.password_only) = false)
  /\ valid Database.SCHEMA (<["name" := JString "my-db"]> Sample.password_only) = false
  /\ valid Database.SCHEMA Sample.password_only = true
  /\ Regex.test "^[\w\d-_]*$/" "my-db" = Some false
  /\ Regex.test Reference.spec_pattern "my-db" = Some true.
Proof.
  assert (Hall : forall s,
    valid Database.SCHEMA (<["name" := JString s]> Sample.password_only) = false).
  { intros s. apply (DatabaseFacts.name_rejected _ s). apply lookup_insert_eq. }
  split; [exact Hall|]. split; [apply Hall|].
  split; [vm_compute; reflexivity|].
  split; [apply NamePattern.test_source_pattern | vm_compute; reflexivity].
Qed.

(** C2, as stated, fails: for the engine "oracle" the mapping raises no
    error, it returns [undefined]. *)
Lemma getEngineVersion_oracle_raises_nothing :
  (Database.getEngine Sample.oracle_configuration ∉ Reference.engines)
  /\ Database.getEngineVersion Sample.oracle_configuration = Normal None
  /\ ~ (exists error, Database.getEngineVersion Sample.oracle_configuration = Throw error).
Proof.
  split; [|split].
  - cbn. unfold Reference.engines. rewrite !not_elem_of_cons.
    repeat split; try discriminate. apply not_elem_of_nil.
  - reflexivity.
  - intros [error Herr]. discriminate Herr.
Qed.

(** C2, amended.  For an engine outside mysql, mariadb and postgres no case
    of the switch is taken: the mapping raises no error and returns no
    engine ([undefined]); it returns no default engine either. *)
Theorem getEngineVersion_unmapped (configuration : Database.Configuration) :
  Database.getEngine configuration ∉ Reference.engines ->
  Database.getEngineVersion configuration = Normal None.
Proof.
  unfold Reference.engines. rewrite !not_elem_of_cons.
  intros (Hmysql & Hmaria & Hpostgres & _).
  unfold Database.getEngineVersion.
  apply String.eqb_neq in Hmysql, Hmaria, Hpostgres.
  cbv zeta. rewrite Hmysql, Hmaria, Hpostgres. reflexivity.
Qed.

Lemma getEngineVersion_unmapped_witness :
  (Database.getEngine Sample.oracle_configuration ∉ Reference.engines)
  /\ Database.getEngineVersion Sample.oracle_configuration = Normal None.
Proof.
  assert (Hout : Database.getEngine Sample.oracle_configuration ∉ Reference.engines).
  { cbn. unfold Reference.engines. rewrite !not_elem_of_cons.
    repeat split; try discriminate. apply not_elem_of_nil. }
  split; [exact Hout | apply (getEngineVersion_unmapped Sample.oracle_configuration Hout)].
Defined.

(** C3.  For every valid configuration object, in a well-formed store,
    under a fresh name and with a network context, the engine the database
    instance is declared with is the row of the fixed table for the engine
    the object asks for, mysql when it has no [engine]: the engine kind is
    that name and the version pair is the row's. *)
Theorem engine_is_table_row `{Cdk.Attributes}
    (o : gmap string json)
    (scope : Cdk.Loc) (id : string) (provider : Cdk.AwsProvider) (w : Cdk.World) :
  valid Database.SCHEMA o = true ->
  Reference.well_formed w ->
  Reference.fresh w scope id ->
  Reference.has_network w provider ->
  exists configuration full major e props,
    Database.asConfiguration o = Some configuration
    /\ Reference.table_row Reference.spec_engine_table
         (Reference.configured_engine o) = Some (full, major)
    /\ Database.getEngineVersion configuration = Normal (Some e)
    /\ Cdk.engineType e = Reference.configured_engine o
    /\ Cdk.engineVersion e = {| Cdk.fullVersion := full; Cdk.majorVersion := major |}
    /\ Database.declaration scope id configuration provider w = Some props
    /\ Cdk.engine props = Some e.
Proof.
  intros Hvalid Hwf Hfresh (network & Hprov & Hnet & Hsub).
  pose proof (DatabaseFacts.valid_engine o Hvalid) as Hin.
  destruct (DatabaseFacts.valid_asConfiguration o Hvalid)
    as (configuration & Hcfg & Heng).
  exists configuration.
  assert (Hasked : Database.string_field o "engine" ?? "mysql"
                   = Reference.configured_engine o).
  { unfold Database.string_field, Reference.configured_engine.
    destruct (o !! "engine") as [[]|]; reflexivity. }
  assert (Hget : Database.getEngine configuration = Reference.configured_engine o).
  { unfold Database.getEngine. rewrite Heng. exact Hasked. }
  rewrite Hasked in Hin.
  destruct (EngineFacts.mapping_cases configuration)
    as [[Hg Hv]|[[Hg Hv]|[[Hg Hv]|[Hg _]]]];
    [| | |rewrite Hget in Hg; contradiction].
  all: rewrite Hget in Hg; rewrite Hg;
    do 3 eexists; eexists;
    (split; [exact Hcfg|]); (split; [reflexivity|]); (split; [exact Hv|]);
    (split; [reflexivity|]); (split; [reflexivity|]);
    (split; [exact (DatabaseFacts.declaration_eq scope id configuration provider
                      w network _ Hwf Hfresh Hprov Hnet Hsub Hv)
            | reflexivity]).
Qed.

Lemma engine_is_table_row_witness :
  exists configuration full major e props,
    Database.asConfiguration Sample.postgres_object = Some configuration
    /\ Reference.table_row Reference.spec_engine_table
         (Reference.configured_engine Sample.postgres_object) = Some (full, major)
    /\ Database.getEngineVersion configuration = Normal (Some e)
    /\ Cdk.engineType e = Reference.configured_engine Sample.postgres_object
    /\ Cdk.engineVersion e
       = {| Cdk.fullVersion := full; Cdk.majorVersion := major |}
    /\ @Database.declaration Sample.sample_attributes 0%nat "db"
         configuration Sample.sample_provider Sample.sample_world = Some props
    /\ Cdk.engine props = Some e.
Proof.
  apply (@engine_is_table_row Sample.sample_attributes Sample.postgres_object
           0%nat "db" Sample.sample_provider Sample.sample_world).
  - vm_compute; reflexivity.
  - exact SampleFacts.sample_well_formed.
  - exact SampleFacts.sample_fresh_db.
  - exact SampleFacts.sample_has_network.
Defined.

(** C4.  For the configuration [{password: "longpass1"}], which is valid,
    in a well-formed store, under a fresh name and with a network context,
    the database instance is declared with engine mysql 8.0.23, instance
    type t3.micro, 20 of allocated storage, 7 days of backup retention, one
    week of log retention and the identifier made of the stack name, a
    hyphen and the construct's id. *)
Theorem declaration_of_password_only `{Cdk.Attributes}
    (scope : Cdk.Loc) (id : string) (provider : Cdk.AwsProvider) (w : Cdk.World) :
  Reference.well_formed w ->
  Reference.fresh w scope id ->
  Reference.has_network w provider ->
  valid Database.SCHEMA Sample.password_only = true
  /\ exists configuration props,
       Database.asConfiguration Sample.password_only = Some configuration
       /\ Database.declaration scope id configuration provider w = Some props
       /\ Cdk.engine props = Some (Cdk.mysql (Cdk.EngineVersion_of "8.0.23" "8.0"))
       /\ Cdk.instanceType props = {| Cdk.instanceTypeIdentifier := "t3.micro" |}
       /\ Cdk.allocatedStorage props = 20
       /\ Cdk.backupRetention props = Cdk.days 7
       /\ Cdk.cloudwatchLogsRetention props = Cdk.ONE_WEEK
       /\ Cdk.instanceIdentifier props = Cdk.stackName provider +:+ "-" +:+ id.
Proof.
  intros Hwf Hfresh (network & Hprov & Hnet & Hsub).
  split; [vm_compute; reflexivity|].
  eexists. eexists. split; [vm_compute; reflexivity|].
  split.
  - apply (DatabaseFacts.declaration_eq scope id _ provider w network
             (Cdk.mysql (Cdk.EngineVersion_of "8.0.23" "8.0")));
      try assumption. reflexivity.
  - cbn. repeat split.
Qed.

Lemma declaration_of_password_only_witness :
  exists configuration props,
    Database.asConfiguration Sample.password_only = Some configuration
    /\ @Database.declaration Sample.sample_attributes 0%nat "db" configuration
         Sample.sample_provider Sample.sample_world = Some props
    /\ Cdk.engine props = Some (Cdk.mysql (Cdk.EngineVersion_of "8.0.23" "8.0"))
    /\ Cdk.instanceType props = {| Cdk.instanceTypeIdentifier := "t3.micro" |}
    /\ Cdk.allocatedStorage props = 20
    /\ Cdk.backupRetention props = Cdk.days 7
    /\ Cdk.cloudwatchLogsRetention props = Cdk.ONE_WEEK
    /\ Cdk.instanceIdentifier props = "app-dev-db".
Proof.
  exact (proj2 (@declaration_of_password_only Sample.sample_attributes 0%nat "db"
                  Sample.sample_provider Sample.sample_world
                  SampleFacts.sample_well_formed SampleFacts.sample_fresh_db
                  SampleFacts.sample_has_network)).
Defined.

(** C5.  Validation of a database configuration refuses every password
    shorter than 8 characters and every storage size below 20; a valid
    configuration stays valid when its password is replaced by one of
    exactly 8 characters, or its storage size by exactly 20.  Characters are
    counted as the validator counts them, one per code point. *)
Theorem validation_boundaries
    (o : gmap string json) (short exact : string) (small : Q) :
  (o !! "password" = Some (JString short) ->
   (code_points short < 8)%nat -> valid Database.SCHEMA o = false)
  /\ (valid Database.SCHEMA o = true -> code_points exact = 8%nat ->
      valid Database.SCHEMA (<["password" := JString exact]> o) = true)
  /\ (o !! "storageSize" = Some (JNumber small) ->
      (small < inject_Z 20)%Q -> valid Database.SCHEMA o = false)
  /\ (valid Database.SCHEMA o = true ->
      valid Database.SCHEMA (<["storageSize" := JNumber (inject_Z 20)]> o) = true).
Proof.
  split; [|split; [|split]].
  - intros Hpw Hlen. destruct (valid Database.SCHEMA o) eqn:Hvalid; [|reflexivity].
    apply SchemaFacts.valid_iff in Hvalid as (Hprops & _ & _).
    pose proof (Hprops "password" _ _ ltac:(cbn; in_list) Hpw) as Herr.
    unfold property_errors in Herr. cbn - [Nat.leb code_points] in Herr.
    rewrite app_nil_r in Herr. apply SchemaFacts.check_nil, Nat.leb_le in Herr.
    lia.
  - intros Hvalid Hlen. apply SchemaFacts.valid_insert; [exact Hvalid|cbn; in_list|].
    intros ps Hin. apply DatabaseFacts.declared_property in Hin.
    destruct Hin as [Hin|[Hin|[Hin|[Hin|Hin]]]]; try discriminate Hin.
    injection Hin as ->. unfold property_errors. cbn - [code_points].
    rewrite Hlen. reflexivity.
  - intros Hsize Hlt. destruct (valid Database.SCHEMA o) eqn:Hvalid; [|reflexivity].
    apply SchemaFacts.valid_iff in Hvalid as (Hprops & _ & _).
    pose proof (Hprops "storageSize" _ _ ltac:(cbn; in_list) Hsize) as Herr.
    unfold property_errors in Herr. cbn - [Qle_bool inject_Z] in Herr.
    apply app_nil in Herr as [_ Herr]. rewrite app_nil_r in Herr.
    apply SchemaFacts.check_nil, Qle_bool_iff in Herr.
    exfalso. exact (Qlt_not_le _ _ Hlt Herr).
  - intros Hvalid. apply SchemaFacts.valid_insert; [exact Hvalid|cbn; in_list|].
    intros ps Hin. apply DatabaseFacts.declared_property in Hin.
    destruct Hin as [Hin|[Hin|[Hin|[Hin|Hin]]]]; try discriminate Hin.
    injection Hin as ->. reflexivity.
Qed.

Lemma validation_boundaries_witness :
  valid Database.SCHEMA {[ "password" := JString "short77" ]} = false
  /\ valid Database.SCHEMA {[ "password" := JString Sample.two_emoji ]} = false
  /\ valid Database.SCHEMA (<["password" := JString "exactly8"]> Sample.password_only) = true
  /\ valid Database.SCHEMA
       (<["password" := JString Sample.eight_letters]> Sample.password_only) = true
  /\ valid Database.SCHEMA
       (<["storageSize" := JNumber (inject_Z 19)]> Sample.password_only) = false
  /\ valid Database.SCHEMA
       (<["storageSize" := JNumber (inject_Z 20)]> Sample.password_only) = true.
Proof.
  split; [|split; [|split; [|split; [|split]]]].
  - apply (proj1 (validation_boundaries
                    {[ "password" := JString "short77" ]} "short77" "exactly8" 0%Q)).
    + vm_compute; reflexivity.
    + vm_compute; lia.
  - apply (proj1 (validation_boundaries
                    {[ "password" := JString Sample.two_emoji ]}
                    Sample.two_emoji "exactly8" 0%Q)).
    + vm_compute; reflexivity.
    + vm_compute; lia.
  - apply (proj1 (proj2 (validation_boundaries Sample.password_only "" "exactly8" 0%Q))).
    + vm_compute; reflexivity.
    + reflexivity.
  - apply (proj1 (proj2 (validation_boundaries Sample.password_only ""
                           Sample.eight_letters 0%Q))).
    + vm_compute; reflexivity.
    + reflexivity.
  - apply (proj1 (proj2 (proj2 (validation_boundaries
             (<["storageSize" := JNumber (inject_Z 19)]> Sample.password_only)
             "" "exactly8" (inject_Z 19))))).
    + vm_compute; reflexivity.
    + reflexivity.
  - apply (proj2 (proj2 (proj2 (validation_boundaries Sample.password_only
                                  "" "exactly8" 0%Q)))).
    vm_compute; reflexivity.
Defined.

(** C6.  The derivation of the database name removes the hyphens and the
    underscores and keeps every other character, in order; it is
    idempotent, and it maps "my-app_db-1" to "myappdb1". *)
Theorem safeDbName_strips_separators :
  Database.safeDbName "my-app_db-1" = "myappdb1"
  /\ (forall s,
        list_ascii_of_string (Database.safeDbName s)
        = filter (fun c => c <> "-"%char /\ c <> "_"%char) (list_ascii_of_string s))
  /\ (forall s, Database.safeDbName (Database.safeDbName s) = Database.safeDbName s).
Proof.
  split; [reflexivity|]. split.
  - intros s. unfold Database.safeDbName.
    induction s as [|x s IH]; [reflexivity|].
    cbn [Database.remove_all list_ascii_of_string]. rewrite filter_cons.
    destruct (Ascii.eqb x "-") eqn:Eh.
    + apply Ascii.eqb_eq in Eh. rewrite decide_False by tauto. exact IH.
    + apply Ascii.eqb_neq in Eh. cbn [Database.remove_all].
      destruct (Ascii.eqb x "_") eqn:Eu.
      * apply Ascii.eqb_eq in Eu. rewrite decide_False by tauto. exact IH.
      * apply Ascii.eqb_neq in Eu. rewrite decide_True by tauto.
        cbn [list_ascii_of_string]. rewrite IH. reflexivity.
  - intros s. unfold Database.safeDbName.
    rewrite (DatabaseFacts.remove_all_comm "-" "_").
    rewrite !DatabaseFacts.remove_all_idem. reflexivity.
Qed.

(** C7.  For every configuration, in a well-formed store and under a fresh
    name, the construction of the network succeeds; the network is declared
    with 2 as its number of availability zones, and one security group is
    created, inside it, whose egress rules are the single rule: any IPv4
    peer, all traffic.  Every security group of the store afterwards is
    that one or was there before. *)
Theorem vpc_declares_two_zones_and_one_group `{Cdk.Attributes}
    (scope : Cdk.Loc) (id : string) (configuration : Vpc.Configuration)
    (provider : Cdk.AwsProvider) (w : Cdk.World) :
  Reference.well_formed w ->
  Reference.fresh w scope id ->
  exists vpc w',
    Vpc.constructor scope id configuration provider w = Normal (vpc, w')
    /\ Cdk.heap w !! Vpc.this vpc = None
    /\ Cdk.heap w' !! Vpc.this vpc = Some (Cdk.Vpc scope id {| Cdk.maxAzs := 2 |})
    /\ Cdk.heap w !! Vpc.appSecurityGroup vpc = None
    /\ Cdk.heap w' !! Vpc.appSecurityGroup vpc
       = Some (Cdk.SecurityGroup (Vpc.this vpc) "AppSecurityGroup"
                 {| Cdk.sg_vpc := Vpc.this vpc |} [(Cdk.anyIpv4, Cdk.allTraffic)])
    /\ (forall l s i props egress,
          Cdk.heap w' !! l = Some (Cdk.SecurityGroup s i props egress) ->
          l = Vpc.appSecurityGroup vpc
          \/ Cdk.heap w !! l = Some (Cdk.SecurityGroup s i props egress)).
Proof.
  intros Hwf Hfresh.
  do 2 eexists. split; [apply (VpcFacts.vpc_constructor_eq _ _ _ _ _ Hwf Hfresh)|].
  cbn [Vpc.this Vpc.appSecurityGroup Cdk.heap]. split; [|split; [|split; [|split]]].
  - apply lookup_ge_None. lia.
  - apply list_lookup_middle. reflexivity.
  - apply lookup_ge_None. lia.
  - rewrite lookup_app_r by lia.
    replace (S (length (Cdk.heap w)) - length (Cdk.heap w))%nat with 1%nat by lia.
    reflexivity.
  - intros l s i props egress Hl.
    apply lookup_app_Some in Hl as [Hold|[Hge Hnew]]; [right; exact Hold|left].
    destruct (l - length (Cdk.heap w))%nat as [|[|k]] eqn:Hk; cbn in Hnew;
      try discriminate. lia.
Qed.

Lemma vpc_declares_two_zones_and_one_group_witness :
  exists vpc w',
    @Vpc.constructor Sample.sample_attributes 0%nat "net" {| Vpc.type := None |}
      Sample.sample_provider Sample.sample_world = Normal (vpc, w')
    /\ Cdk.heap w' !! Vpc.this vpc = Some (Cdk.Vpc 0%nat "net" {| Cdk.maxAzs := 2 |})
    /\ Cdk.heap w' !! Vpc.appSecurityGroup vpc
       = Some (Cdk.SecurityGroup (Vpc.this vpc) "AppSecurityGroup"
                 {| Cdk.sg_vpc := Vpc.this vpc |} [(Cdk.anyIpv4, Cdk.allTraffic)]).
Proof.
  destruct (@vpc_declares_two_zones_and_one_group Sample.sample_attributes
              0%nat "net" {| Vpc.type := None |} Sample.sample_provider
              Sample.sample_world SampleFacts.sample_well_formed
              (SampleFacts.sample_fresh "net" ltac:(discriminate)
                 ltac:(discriminate) ltac:(discriminate)))
    as (vpc & w' & Hrun & _ & Hvpc & _ & Hgroup & _).
  exists vpc, w'. auto.
Defined.

(** C8.  In a well-formed store and under a fresh name, the construction of
    the network calls the provider once, with the name attribute of the
    security group it has just created inside the network and the
    identifiers of the private subnets of the network it has just created;
    the construct exposes no reference and no output. *)
Theorem vpc_registers_once_and_exposes_nothing `{Cdk.Attributes}
    (scope : Cdk.Loc) (id : string) (configuration : Vpc.Configuration)
    (provider : Cdk.AwsProvider) (w : Cdk.World) :
  Reference.well_formed w ->
  Reference.fresh w scope id ->
  exists vpc w' network group,
    Vpc.constructor scope id configuration provider w = Normal (vpc, w')
    /\ Cdk.calls w'
       = Cdk.calls w
         ++ [ Cdk.SetVpcConfig [Cdk.securityGroupName group]
                (Cdk.subnetId <$> Cdk.privateSubnets network) ]
    /\ Cdk.heap w !! network = None
    /\ Cdk.heap w' !! network = Some (Cdk.Vpc scope id {| Cdk.maxAzs := 2 |})
    /\ Cdk.heap w !! group = None
    /\ Cdk.heap w' !! group
       = Some (Cdk.SecurityGroup network "AppSecurityGroup"
                 {| Cdk.sg_vpc := network |} [(Cdk.anyIpv4, Cdk.allTraffic)])
    /\ Cdk.exposed (Cdk.references (Vpc.interface vpc)) = ∅
    /\ Cdk.exposed (Cdk.outputs (Vpc.interface vpc)) = ∅.
Proof.
  intros Hwf Hfresh.
  do 2 eexists. exists (length (Cdk.heap w)), (S (length (Cdk.heap w))).
  split; [apply (VpcFacts.vpc_constructor_eq _ _ _ _ _ Hwf Hfresh)|].
  cbn [Cdk.heap Cdk.calls]. split; [reflexivity|].
  split; [apply lookup_ge_None; lia|].
  split; [apply list_lookup_middle; reflexivity|].
  split; [apply lookup_ge_None; lia|].
  split.
  - rewrite lookup_app_r by lia.
    replace (S (length (Cdk.heap w)) - length (Cdk.heap w))%nat with 1%nat by lia.
    reflexivity.
  - split; [reflexivity|]. cbn. unfold Vpc.outputs. apply dom_empty_L.
Qed.

Lemma vpc_registers_once_and_exposes_nothing_witness :
  exists vpc w',
    @Vpc.constructor Sample.sample_attributes 0%nat "net" {| Vpc.type := None |}
      Sample.sample_provider Sample.sample_world = Normal (vpc, w')
    /\ Cdk.calls w' = [Cdk.SetVpcConfig ["sg-token"] ["subnet-a"; "subnet-b"]].
Proof.
  destruct (@vpc_registers_once_and_exposes_nothing Sample.sample_attributes
              0%nat "net" {| Vpc.type := None |} Sample.sample_provider
              Sample.sample_world SampleFacts.sample_well_formed
              (SampleFacts.sample_fresh "net" ltac:(discriminate)
                 ltac:(discriminate) ltac:(discriminate)))
    as (vpc & w' & network & group & Hrun & Hcalls & _).
  exists vpc, w'. split; [exact Hrun|]. rewrite Hcalls. reflexivity.
Defined.

(** C9.  The configuration with the empty name: the pattern of the schema
    does not admit the empty string, and the schema refuses the object. *)
Lemma empty_name_is_refused :
  pattern_ok "^[\w\d-_]*$/" (JString "") = false
  /\ valid Database.SCHEMA (<["name" := JString ""]> Sample.password_only) = false.
Proof. split; vm_compute; reflexivity. Qed.


(** C10.  For every configuration whose engine is one of the table, in a
    well-formed store, under a fresh name and with a network context, the
    database instance is declared with the log exports being the list of the
    empty string alone and with a log retention of one week. *)
Theorem log_settings_are_fixed `{Cdk.Attributes}
    (scope : Cdk.Loc) (id : string) (configuration : Database.Configuration)
    (provider : Cdk.AwsProvider) (w : Cdk.World) :
  Reference.well_formed w ->
  Reference.fresh w scope id ->
  Reference.has_network w provider ->
  Database.getEngine configuration ∈ Reference.engines ->
  exists props,
    Database.declaration scope id configuration provider w = Some props
    /\ Cdk.cloudwatchLogsExports props = [""]
    /\ Cdk.cloudwatchLogsRetention props = Cdk.ONE_WEEK.
Proof.
  intros Hwf Hfresh (network & Hprov & Hnet & Hsub) Hengine.
  destruct (EngineFacts.mapped configuration Hengine) as [e He].
  eexists. split.
  - exact (DatabaseFacts.declaration_eq scope id configuration provider w
             network e Hwf Hfresh Hprov Hnet Hsub He).
  - split; reflexivity.
Qed.

Lemma log_settings_are_fixed_witness :
  exists props,
    @Database.declaration Sample.sample_attributes 0%nat "db"
      Sample.unnamed_configuration Sample.sample_provider Sample.sample_world
    = Some props
    /\ Cdk.cloudwatchLogsExports props = [""]
    /\ Cdk.cloudwatchLogsRetention props = Cdk.ONE_WEEK.
Proof.
  apply (@log_settings_are_fixed Sample.sample_attributes 0%nat "db"
           Sample.unnamed_configuration Sample.sample_provider Sample.sample_world).
  - exact SampleFacts.sample_well_formed.
  - exact SampleFacts.sample_fresh_db.
  - exact SampleFacts.sample_has_network.
  - cbn. unfold Reference.engines. in_list.
Defined.

(** * Further properties of the two constructs *)

(** ** What the schemas accept *)
Module SchemaShape.

(** Under [name] nothing passes: a string fails the pattern, another value
    fails the type. *)
Lemma name_never_passes ps v :
  type_ ps = Some TyString ->
  pattern ps = Some Reference.source_pattern ->
  property_errors "name" ps v <> [].
Proof.
  intros Hty Hpat Herr. unfold property_errors in Herr.
  rewrite Hty, Hpat in Herr. cbn [when_present] in Herr.
  apply app_nil in Herr as [Htype Herr]. apply app_nil in Herr as [Hpattern _].
  apply SchemaFacts.check_nil in Htype, Hpattern.
  destruct v; try discriminate Htype.
  rewrite NamePattern.source_pattern_rejects in Hpattern. discriminate.
Qed.

Lemma json_eqb_string v s : json_eqb v (JString s) = true -> v = JString s.
Proof.
  destruct v; try discriminate. cbn. intros Heq.
  apply String.eqb_eq in Heq. congruence.
Qed.

(** The shape of the objects the database schema accepts. *)
Lemma database_valid_iff (o : gmap string json) :
  valid Database.SCHEMA o = true <->
    o !! "name" = None
    /\ (exists p, o !! "password" = Some (JString p) /\ (8 <= code_points p)%nat)
    /\ (o !! "engine" = None
        \/ exists e, o !! "engine" = Some (JString e) /\ e ∈ Reference.engines)
    /\ (o !! "instanceType" = None
        \/ exists t, o !! "instanceType" = Some (JString t))
    /\ (o !! "storageSize" = None
        \/ exists q, o !! "storageSize" = Some (JNumber q)
                     /\ is_integer q = true /\ (inject_Z 20 <= q)%Q)
    /\ (forall k, is_Some (o !! k) ->
                  k ∈ ["name"; "password"; "engine"; "instanceType"; "storageSize"]).
Proof.
  rewrite SchemaFacts.valid_iff. split.
  - intros (Hprops & Hclosed & Hreq). repeat split.
    + destruct (o !! "name") as [v|] eqn:Hv; [|reflexivity].
      pose proof (Hprops "name" _ v ltac:(cbn; in_list) Hv) as Herr.
      exfalso. revert Herr. apply SchemaShape.name_never_passes; reflexivity.
    + destruct (Hreq "password" ltac:(cbn; in_list)) as [v Hv].
      pose proof (Hprops "password" _ v ltac:(cbn; in_list) Hv) as Herr.
      unfold property_errors in Herr. cbn [when_present type_ pattern minLength
        enum minimum const] in Herr.
      apply app_nil in Herr as [Hty Herr]. rewrite app_nil_l in Herr.
      apply app_nil in Herr as [Hlen _].
      apply SchemaFacts.check_nil in Hty, Hlen.
      destruct v; try discriminate Hty. unfold minLength_ok in Hlen.
      exists s. split; [exact Hv|]. apply Nat.leb_le. exact Hlen.
    + destruct (o !! "engine") as [v|] eqn:Hv; [right|left; reflexivity].
      pose proof (Hprops "engine" _ v ltac:(cbn; in_list) Hv) as Herr.
      unfold property_errors in Herr. cbn in Herr.
      apply app_nil in Herr as [Hty Herr]. apply app_nil in Herr as [Hen _].
      apply SchemaFacts.check_nil in Hty, Hen.
      destruct v; try discriminate Hty. exists s. split; [reflexivity|].
      cbn in Hen. rewrite orb_false_r in Hen.
      apply orb_true_iff in Hen as [Hen|Hen];
        [|apply orb_true_iff in Hen as [Hen|Hen]];
        apply String.eqb_eq in Hen; subst; unfold Reference.engines; in_list.
    + destruct (o !! "instanceType") as [v|] eqn:Hv; [right|left; reflexivity].
      pose proof (Hprops "instanceType" _ v ltac:(cbn; in_list) Hv) as Herr.
      unfold property_errors in Herr. cbn in Herr. rewrite app_nil_r in Herr.
      apply SchemaFacts.check_nil in Herr.
      destruct v; try discriminate Herr. eauto.
    + destruct (o !! "storageSize") as [v|] eqn:Hv; [right|left; reflexivity].
      pose proof (Hprops "storageSize" _ v ltac:(cbn; in_list) Hv) as Herr.
      unfold property_errors in Herr. cbn - [Qle_bool inject_Z] in Herr.
      apply app_nil in Herr as [Hty Herr]. rewrite app_nil_r in Herr.
      apply SchemaFacts.check_nil in Hty, Herr.
      destruct v; try discriminate Hty. exists q. split; [reflexivity|].
      split; [exact Hty|]. apply Qle_bool_iff. exact Herr.
    + intros k Hk. exact (Hclosed eq_refl k Hk).
  - intros (Hname & (p & Hp & Hlen) & Heng & Hty & Hsize & Hclosed). repeat split.
    + intros k ps v Hin Hv. apply DatabaseFacts.declared_property in Hin.
      destruct Hin as [Hin|[Hin|[Hin|[Hin|Hin]]]]; injection Hin as -> ->.
      * congruence.
      * rewrite Hp in Hv. injection Hv as <-. unfold property_errors.
        cbn - [Nat.leb code_points]. apply Nat.leb_le in Hlen. rewrite Hlen. reflexivity.
      * destruct Heng as [Heng|(e & He & Hin)]; [congruence|].
        rewrite He in Hv. injection Hv as <-. unfold property_errors. cbn.
        unfold Reference.engines in Hin.
        rewrite !elem_of_cons, elem_of_nil in Hin.
        destruct Hin as [->|[->|[->|[]]]]; reflexivity.
      * destruct Hty as [Hty|(t & Ht)]; [congruence|].
        rewrite Ht in Hv. injection Hv as <-. reflexivity.
      * destruct Hsize as [Hsize|(q & Hq & Hint & Hmin)]; [congruence|].
        rewrite Hq in Hv. injection Hv as <-. unfold property_errors.
        cbn - [Qle_bool inject_Z]. rewrite Hint.
        apply Qle_bool_iff in Hmin. rewrite Hmin. reflexivity.
    + intros _ k Hk. exact (Hclosed k Hk).
    + intros k Hk. cbn in Hk. apply list_elem_of_singleton in Hk as ->. eauto.
Qed.


End SchemaShape.

(** The objects the schema of the database construct accepts: no [name];
    a [password] that is a string of at least 8 characters (code points); an [engine], if
    any, among the three strings; an [instanceType], if any, that is a
    string; a [storageSize], if any, that is an integer of at least 20; and
    no other property. *)
Theorem database_schema_accepts (o : gmap string json) :
  valid Database.SCHEMA o = true <->
    o !! "name" = None
    /\ (exists p, o !! "password" = Some (JString p) /\ (8 <= code_points p)%nat)
    /\ (o !! "engine" = None
        \/ exists e, o !! "engine" = Some (JString e) /\ e ∈ Reference.engines)
    /\ (o !! "instanceType" = None
        \/ exists t, o !! "instanceType" = Some (JString t))
    /\ (o !! "storageSize" = None
        \/ exists q, o !! "storageSize" = Some (JNumber q)
                     /\ is_integer q = true /\ (inject_Z 20 <= q)%Q)
    /\ (forall k, is_Some (o !! k) ->
                  k ∈ ["name"; "password"; "engine"; "instanceType"; "storageSize"]).
Proof. exact (SchemaShape.database_valid_iff o). Qed.

Lemma database_schema_accepts_witness :
  valid Database.SCHEMA Sample.full_object = true
  /\ Sample.full_object !! "name" = None
  /\ exists q, Sample.full_object !! "storageSize" = Some (JNumber q)
               /\ is_integer q = true /\ (inject_Z 20 <= q)%Q.
Proof.
  assert (Hvalid : valid Database.SCHEMA Sample.full_object = true)
    by (vm_compute; reflexivity).
  split; [exact Hvalid|].
  destruct (proj1 (database_schema_accepts Sample.full_object) Hvalid)
    as (Hname & _ & _ & _ & Hsize & _).
  split; [exact Hname|].
  destruct Hsize as [Hnone|Hsome]; [|exact Hsome].
  exfalso. vm_compute in Hnone. discriminate Hnone.
Defined.

(** The objects the schema of the network construct accepts: the empty
    object and the object with the discriminator [type: "vpc"] alone. *)
Theorem vpc_schema_accepts (o : gmap string json) :
  valid Vpc.VPC_DEFINITION o = true <->
    o = ∅ \/ o = {[ "type" := JString "vpc" ]}.
Proof.
  split.
  - intros Hvalid. apply SchemaFacts.valid_iff in Hvalid as (Hprops & Hclosed & _).
    assert (Hkeys : forall k, k <> "type" -> o !! k = None).
    { intros k Hne. destruct (o !! k) as [v|] eqn:Hv; [|reflexivity].
      pose proof (Hclosed eq_refl k ltac:(rewrite Hv; eauto)) as Hin.
      cbn in Hin. apply list_elem_of_singleton in Hin. contradiction. }
    destruct (o !! "type") as [v|] eqn:Hv.
    + right. pose proof (Hprops "type" _ v ltac:(cbn; in_list) Hv) as Herr.
      unfold property_errors in Herr. cbn in Herr.
      apply SchemaFacts.check_nil, SchemaShape.json_eqb_string in Herr. subst v.
      apply map_eq. intros k. destruct (decide (k = "type")) as [->|Hne].
      * rewrite lookup_singleton_eq. exact Hv.
      * rewrite lookup_singleton_ne by congruence. auto.
    + left. apply map_eq. intros k. rewrite lookup_empty.
      destruct (decide (k = "type")) as [->|Hne]; auto.
  - intros [->| ->]; vm_compute; reflexivity.
Qed.

Lemma vpc_schema_accepts_witness :
  valid Vpc.VPC_DEFINITION {[ "type" := JString "vpc" ]} = true.
Proof.
  apply (proj2 (vpc_schema_accepts {[ "type" := JString "vpc" ]})).
  right. reflexivity.
Defined.

(** ** From a valid object to the declaration *)
Module ValidDeclaration.

Lemma asConfiguration_fields (o : gmap string json) configuration :
  Database.asConfiguration o = Some configuration ->
  Database.name configuration = Database.string_field o "name"
  /\ Database.string_field o "password" = Some (Database.password configuration)
  /\ Database.engine configuration = Database.string_field o "engine"
  /\ Database.instanceType configuration = Database.string_field o "instanceType"
  /\ Database.storageSize configuration = Database.integer_field o "storageSize".
Proof.
  unfold Database.asConfiguration.
  destruct (Database.string_field o "password") as [p|]; [|discriminate].
  intros [= <-]. cbn. repeat split.
Qed.

(** An integral rational is its quotient. *)
Lemma integer_quotient q :
  is_integer q = true -> (inject_Z (Qnum q / Zpos (Qden q)) == q)%Q.
Proof.
  unfold is_integer. intros Hint. apply Z.eqb_eq in Hint.
  unfold Qeq, inject_Z. cbn [Qnum Qden].
  pose proof (Z.div_mod (Qnum q) (Zpos (Qden q)) ltac:(lia)) as Hdm.
  rewrite Hint in Hdm. lia.
Qed.

Lemma integer_quotient_bound q m :
  is_integer q = true -> (inject_Z m <= q)%Q -> m <= Qnum q / Zpos (Qden q).
Proof.
  intros Hint Hle. apply integer_quotient in Hint.
  rewrite <- Hint in Hle. rewrite <- Zle_Qle in Hle. exact Hle.
Qed.

End ValidDeclaration.

(** The engine mapping returns an engine exactly when the configured engine
    (mysql when absent) is one of the three names; the engine returned then
    has that name as its kind, and its version pair is the table's row. *)
Theorem getEngineVersion_defined_iff (configuration : Database.Configuration) :
  ((exists e, Database.getEngineVersion configuration = Normal (Some e))
   <-> Database.getEngine configuration ∈ Reference.engines)
  /\ (forall e, Database.getEngineVersion configuration = Normal (Some e) ->
        Cdk.engineType e = Database.getEngine configuration
        /\ Reference.table_row Reference.spec_engine_table
             (Database.getEngine configuration)
           = Some (Cdk.fullVersion (Cdk.engineVersion e),
                   Cdk.majorVersion (Cdk.engineVersion e))).
Proof.
  destruct (EngineFacts.mapping_cases configuration)
    as [[Hg Hv]|[[Hg Hv]|[[Hg Hv]|[Hg Hv]]]]; rewrite Hv.
  1-3: split;
    [ split; [intros _; rewrite Hg; unfold Reference.engines; in_list | eauto]
    | intros e [= <-]; rewrite Hg; split; reflexivity ].
  split.
  - split; [intros [e [=]] | intros Hin; contradiction].
  - intros e [=].
Qed.

Lemma getEngineVersion_defined_iff_witness :
  exists e, Database.getEngineVersion Sample.unnamed_configuration = Normal (Some e)
            /\ Cdk.engineType e = "mariadb".
Proof.
  destruct (getEngineVersion_defined_iff Sample.unnamed_configuration)
    as [Hiff Hrow].
  destruct (proj2 Hiff) as [e He].
  - cbn. unfold Reference.engines. in_list.
  - exists e. split; [exact He|]. exact (proj1 (Hrow e He)).
Defined.

(** ** The derived database name *)
Module NameFacts.
Import Database.

Lemma remove_all_app c a b :
  remove_all c (a +:+ b) = remove_all c a +:+ remove_all c b.
Proof.
  induction a as [|x a IH]; [reflexivity|].
  change (String x a +:+ b) with (String x (a +:+ b)).
  cbn [remove_all]. destruct (Ascii.eqb x c); rewrite IH; reflexivity.
Qed.

Lemma safeDbName_app a b : safeDbName (a +:+ b) = safeDbName a +:+ safeDbName b.
Proof. unfold safeDbName. rewrite !remove_all_app. reflexivity. Qed.

Lemma remove_all_length c s :
  (String.length (remove_all c s) <= String.length s)%nat.
Proof.
  induction s as [|x s IH]; cbn; [lia|].
  destruct (Ascii.eqb x c); cbn; lia.
Qed.

(** The characters left are those of the input other than the one removed. *)
Lemma elem_of_remove_all c x s :
  x ∈ list_ascii_of_string (remove_all c s)
  <-> x ∈ list_ascii_of_string s /\ x <> c.
Proof.
  induction s as [|y s IH]; cbn.
  - rewrite elem_of_nil. tauto.
  - destruct (Ascii.eqb y c) eqn:E.
    + apply Ascii.eqb_eq in E. subst y. rewrite IH, elem_of_cons.
      split; [tauto|]. intros [[->|Hin] Hne]; [contradiction|tauto].
    + apply Ascii.eqb_neq in E. cbn. rewrite !elem_of_cons, IH.
      split; [|tauto]. intros [->|[Hin Hne]]; [split; [left; reflexivity|exact E]|tauto].
Qed.

Lemma elem_of_safeDbName x s :
  x ∈ list_ascii_of_string (safeDbName s)
  <-> x ∈ list_ascii_of_string s /\ x <> "-"%char /\ x <> "_"%char.
Proof. unfold safeDbName. rewrite !elem_of_remove_all. tauto. Qed.

Lemma remove_all_absent c s :
  c ∉ list_ascii_of_string s -> remove_all c s = s.
Proof.
  induction s as [|y s IH]; cbn; [reflexivity|].
  rewrite not_elem_of_cons. intros [Hne Hnin].
  destruct (Ascii.eqb y c) eqn:E.
  - apply Ascii.eqb_eq in E. congruence.
  - rewrite IH by exact Hnin. reflexivity.
Qed.

Lemma safeDbName_fixed_iff s :
  safeDbName s = s
  <-> forall x, x ∈ list_ascii_of_string s -> x <> "-"%char /\ x <> "_"%char.
Proof.
  split.
  - intros Hfix x Hin. rewrite <- Hfix in Hin.
    apply elem_of_safeDbName in Hin. tauto.
  - intros Hall. unfold safeDbName.
    rewrite (remove_all_absent "-" s) by (intros Hin; apply Hall in Hin; tauto).
    apply remove_all_absent. intros Hin. apply Hall in Hin. tauto.
Qed.

End NameFacts.

(** The derivation of the database name distributes over concatenation:
    deriving from two strings put together is putting together what is
    derived from each. *)
Theorem safeDbName_concat (a b : string) :
  Database.safeDbName (a +:+ b) = Database.safeDbName a +:+ Database.safeDbName b.
Proof. exact (NameFacts.safeDbName_app a b). Qed.

(** The derivation leaves a string unchanged exactly when it has neither a
    hyphen nor an underscore, and it never makes a string longer. *)
Theorem safeDbName_fixed_points (s : string) :
  (Database.safeDbName s = s
   <-> forall x, x ∈ list_ascii_of_string s -> x <> "-"%char /\ x <> "_"%char)
  /\ (String.length (Database.safeDbName s) <= String.length s)%nat.
Proof.
  split; [exact (NameFacts.safeDbName_fixed_iff s)|].
  unfold Database.safeDbName.
  etransitivity; [apply NameFacts.remove_all_length|apply NameFacts.remove_all_length].
Qed.

Lemma safeDbName_fixed_points_witness :
  Database.safeDbName "mydb1" = "mydb1".
Proof.
  apply (proj2 (proj1 (safeDbName_fixed_points "mydb1"))).
  intros x Hin. cbn in Hin. rewrite !elem_of_cons, elem_of_nil in Hin.
  destruct Hin as [->|[->|[->|[->|[->|[]]]]]]; split; discriminate.
Defined.


(** For every valid configuration object, in a well-formed store, under a
    fresh name and with a network context, the database instance is declared
    with at least 20 of storage: exactly the configured [storageSize] when
    there is one, and 20 when there is none. *)
Theorem allocated_storage_of_valid `{Cdk.Attributes}
    (o : gmap string json)
    (scope : Cdk.Loc) (id : string) (provider : Cdk.AwsProvider) (w : Cdk.World) :
  valid Database.SCHEMA o = true ->
  Reference.well_formed w ->
  Reference.fresh w scope id ->
  Reference.has_network w provider ->
  exists configuration props,
    Database.asConfiguration o = Some configuration
    /\ Database.declaration scope id configuration provider w = Some props
    /\ 20 <= Cdk.allocatedStorage props
    /\ (o !! "storageSize" = None -> Cdk.allocatedStorage props = 20)
    /\ (forall q, o !! "storageSize" = Some (JNumber q) ->
                  (inject_Z (Cdk.allocatedStorage props) == q)%Q).
Proof.
  intros Hvalid Hwf Hfresh (network & Hprov & Hnet & Hsub).
  destruct (DatabaseFacts.valid_asConfiguration o Hvalid)
    as (configuration & Hcfg & Heng).
  destruct (ValidDeclaration.asConfiguration_fields o configuration Hcfg)
    as (_ & _ & _ & _ & Hsize).
  pose proof (DatabaseFacts.valid_engine o Hvalid) as Hin.
  rewrite <- Heng in Hin.
  destruct (EngineFacts.mapped configuration Hin) as [e He].
  pose proof (DatabaseFacts.declaration_eq scope id configuration provider w
                network e Hwf Hfresh Hprov Hnet Hsub He) as Hdecl.
  apply SchemaShape.database_valid_iff in Hvalid as (_ & _ & _ & _ & Hstorage & _).
  exists configuration. eexists. split; [exact Hcfg|]. split; [exact Hdecl|].
  cbn [Cdk.allocatedStorage Reference.expected_props].
  rewrite Hsize. unfold Database.integer_field.
  destruct Hstorage as [Hnone|(q & Hq & Hint & Hmin)].
  - rewrite Hnone. repeat split; [lia|]. intros q [=].
  - rewrite Hq. split; [|split].
    + apply ValidDeclaration.integer_quotient_bound; assumption.
    + intros [=].
    + intros q' [= <-]. apply ValidDeclaration.integer_quotient. exact Hint.
Qed.

Lemma allocated_storage_of_valid_witness :
  exists configuration props,
    Database.asConfiguration Sample.full_object = Some configuration
    /\ @Database.declaration Sample.sample_attributes 0%nat "db" configuration
         Sample.sample_provider Sample.sample_world = Some props
    /\ 20 <= Cdk.allocatedStorage props
    /\ (Sample.full_object !! "storageSize" = None ->
        Cdk.allocatedStorage props = 20)
    /\ (forall q, Sample.full_object !! "storageSize" = Some (JNumber q) ->
                  (inject_Z (Cdk.allocatedStorage props) == q)%Q).
Proof.
  apply (@allocated_storage_of_valid Sample.sample_attributes Sample.full_object
           0%nat "db" Sample.sample_provider Sample.sample_world).
  - vm_compute; reflexivity.
  - exact SampleFacts.sample_well_formed.
  - exact SampleFacts.sample_fresh_db.
  - exact SampleFacts.sample_has_network.
Defined.

(** For every valid configuration object, in a well-formed store, under a
    fresh name and with a network context, the instance is declared with the
    user admin and the configured password as it is, at least 8 characters
    (code points) long; and, as no valid object has a name, with the
    identifier made of the stack name and the construct's id. *)
Theorem credentials_and_identifier_of_valid `{Cdk.Attributes}
    (o : gmap string json)
    (scope : Cdk.Loc) (id : string) (provider : Cdk.AwsProvider) (w : Cdk.World) :
  valid Database.SCHEMA o = true ->
  Reference.well_formed w ->
  Reference.fresh w scope id ->
  Reference.has_network w provider ->
  exists configuration props p,
    Database.asConfiguration o = Some configuration
    /\ Database.declaration scope id configuration provider w = Some props
    /\ o !! "password" = Some (JString p)
    /\ (8 <= code_points p)%nat
    /\ Cdk.credentials props = Cdk.fromPassword "admin" (Cdk.plainText p)
    /\ Cdk.instanceIdentifier props = Cdk.stackName provider +:+ "-" +:+ id.
Proof.
  intros Hvalid Hwf Hfresh (network & Hprov & Hnet & Hsub).
  destruct (DatabaseFacts.valid_asConfiguration o Hvalid)
    as (configuration & Hcfg & Heng).
  destruct (ValidDeclaration.asConfiguration_fields o configuration Hcfg)
    as (Hname & Hpw & _).
  pose proof (DatabaseFacts.valid_engine o Hvalid) as Hin.
  rewrite <- Heng in Hin.
  destruct (EngineFacts.mapped configuration Hin) as [e He].
  pose proof (DatabaseFacts.declaration_eq scope id configuration provider w
                network e Hwf Hfresh Hprov Hnet Hsub He) as Hdecl.
  apply SchemaShape.database_valid_iff in Hvalid as (Hnone & (p & Hp & Hlen) & _).
  exists configuration. eexists. exists p.
  split; [exact Hcfg|]. split; [exact Hdecl|]. split; [exact Hp|]. split; [exact Hlen|].
  cbn [Cdk.credentials Cdk.instanceIdentifier Reference.expected_props].
  unfold Database.string_field in Hname, Hpw. rewrite Hnone in Hname.
  rewrite Hp in Hpw. injection Hpw as <-. rewrite Hname. split; reflexivity.
Qed.

Lemma credentials_and_identifier_of_valid_witness :
  exists configuration props p,
    Database.asConfiguration Sample.full_object = Some configuration
    /\ @Database.declaration Sample.sample_attributes 0%nat "db" configuration
         Sample.sample_provider Sample.sample_world = Some props
    /\ Sample.full_object !! "password" = Some (JString p)
    /\ (8 <= code_points p)%nat
    /\ Cdk.credentials props = Cdk.fromPassword "admin" (Cdk.plainText p)
    /\ Cdk.instanceIdentifier props
       = Cdk.stackName Sample.sample_provider +:+ "-" +:+ "db".
Proof.
  apply (@credentials_and_identifier_of_valid Sample.sample_attributes
           Sample.full_object 0%nat "db" Sample.sample_provider
           Sample.sample_world).
  - vm_compute; reflexivity.
  - exact SampleFacts.sample_well_formed.
  - exact SampleFacts.sample_fresh_db.
  - exact SampleFacts.sample_has_network.
Defined.

(** In a well-formed store, a database instance is declared whenever the
    name is fresh, the provider has a network context and the engine is one
    of the table; and whenever one is declared, its database name has
    neither a hyphen nor an underscore, whatever the name or the identifiers
    are made of. *)
Theorem database_name_has_no_separator `{Cdk.Attributes}
    (scope : Cdk.Loc) (id : string) (configuration : Database.Configuration)
    (provider : Cdk.AwsProvider) (w : Cdk.World) :
  Reference.well_formed w ->
  (Reference.fresh w scope id ->
   Reference.has_network w provider ->
   Database.getEngine configuration ∈ Reference.engines ->
   exists props, Database.declaration scope id configuration provider w = Some props)
  /\ (forall props x,
        Database.declaration scope id configuration provider w = Some props ->
        x ∈ list_ascii_of_string (Cdk.databaseName props) ->
        x <> "-"%char /\ x <> "_"%char).
Proof.
  intros Hwf. split.
  - intros Hfresh (network & Hprov & Hnet & Hsub) Hengine.
    destruct (EngineFacts.mapped configuration Hengine) as [e He].
    eexists. exact (DatabaseFacts.declaration_eq scope id configuration provider
                      w network e Hwf Hfresh Hprov Hnet Hsub He).
  - intros props x Hdecl Hin. unfold Database.declaration in Hdecl.
    destruct (Database.constructor scope id configuration provider w)
      as [[db w']|] eqn:Hrun; [|discriminate].
    destruct (DatabaseFacts.constructor_Normal_inv _ _ _ _ _ _ _ Hrun)
      as (Hfresh & network & e & Hprov & Hnet & Hsub & He).
    rewrite (DatabaseFacts.database_constructor_eq _ _ _ _ _ network e
               Hwf Hfresh Hprov Hnet Hsub He) in Hrun.
    injection Hrun as <- <-. cbn [Database.dbInstance Cdk.heap] in Hdecl.
    rewrite lookup_app_r in Hdecl by lia.
    replace (S (length (Cdk.heap w)) - length (Cdk.heap w))%nat with 1%nat
      in Hdecl by lia.
    cbn in Hdecl. injection Hdecl as <-. cbn in Hin.
    apply NameFacts.elem_of_safeDbName in Hin. tauto.
Qed.

Lemma database_name_has_no_separator_witness :
  exists props,
    @Database.declaration Sample.sample_attributes 0%nat "db"
      Sample.named_configuration Sample.sample_provider Sample.sample_world
    = Some props
    /\ Cdk.databaseName props = "myappdb1"
    /\ "m"%char <> "-"%char.
Proof.
  destruct (@database_name_has_no_separator Sample.sample_attributes 0%nat "db"
              Sample.named_configuration Sample.sample_provider
              Sample.sample_world SampleFacts.sample_well_formed)
    as [Hexists Hchars].
  destruct Hexists as [props Hdecl].
  - exact SampleFacts.sample_fresh_db.
  - exact SampleFacts.sample_has_network.
  - cbn. unfold Reference.engines. in_list.
  - exists props.
    assert (Hname : Cdk.databaseName props = "myappdb1").
    { vm_compute in Hdecl. injection Hdecl as <-. reflexivity. }
    split; [exact Hdecl|]. split; [exact Hname|].
    apply (Hchars props "m"%char Hdecl). rewrite Hname. cbn. in_list.
Defined.

(** Without a name, the database name is what is derived from the stack
    name followed by what is derived from the construct's id: the hyphen
    that joins them in the identifier is removed. *)
Theorem database_name_without_name `{Cdk.Attributes}
    (scope : Cdk.Loc) (id : string) (configuration : Database.Configuration)
    (provider : Cdk.AwsProvider) (w : Cdk.World) :
  Reference.well_formed w ->
  Reference.fresh w scope id ->
  Reference.has_network w provider ->
  Database.getEngine configuration ∈ Reference.engines ->
  Database.name configuration = None ->
  exists props,
    Database.declaration scope id configuration provider w = Some props
    /\ Cdk.instanceIdentifier props = Cdk.stackName provider +:+ "-" +:+ id
    /\ Cdk.databaseName props
       = Database.safeDbName (Cdk.stackName provider) +:+ Database.safeDbName id.
Proof.
  intros Hwf Hfresh (network & Hprov & Hnet & Hsub) Hengine Hname.
  destruct (EngineFacts.mapped configuration Hengine) as [e He].
  eexists. split.
  - exact (DatabaseFacts.declaration_eq scope id configuration provider w
             network e Hwf Hfresh Hprov Hnet Hsub He).
  - cbn [Cdk.databaseName Cdk.instanceIdentifier Reference.expected_props].
    rewrite Hname. split; [reflexivity|].
    rewrite !NameFacts.safeDbName_app. reflexivity.
Qed.

Lemma database_name_without_name_witness :
  exists props,
    @Database.declaration Sample.sample_attributes 0%nat "my_db"
      Sample.unnamed_configuration Sample.sample_provider Sample.sample_world
    = Some props
    /\ Cdk.instanceIdentifier props = "app-dev-my_db"
    /\ Cdk.databaseName props = "appdevmydb".
Proof.
  apply (@database_name_without_name Sample.sample_attributes 0%nat "my_db"
           Sample.unnamed_configuration Sample.sample_provider
           Sample.sample_world).
  - exact SampleFacts.sample_well_formed.
  - apply SampleFacts.sample_fresh; discriminate.
  - exact SampleFacts.sample_has_network.
  - cbn. unfold Reference.engines. in_list.
  - reflexivity.
Defined.

(** ** When the constructions succeed *)
Module SuccessFacts.

Section Success.
Context `{Cdk.Attributes}.



End Success.

End SuccessFacts.





(** When the construction of the database succeeds, the output [host] is
    the stack output "DbHost" it created under the construct, whose value is
    the host name of the instance it created under the construct; the
    reference [host] is to that same host name and the reference [port] to
    the port of the same instance. *)
Theorem host_output_and_references `{Cdk.Attributes}
    (scope : Cdk.Loc) (id : string) (configuration : Database.Configuration)
    (provider : Cdk.AwsProvider) (w : Cdk.World) :
  Reference.well_formed w ->
  Reference.fresh w scope id ->
  Reference.has_network w provider ->
  Database.getEngine configuration ∈ Reference.engines ->
  exists db w' props output,
    Database.constructor scope id configuration provider w = Normal (db, w')
    /\ Database.outputs db !! "host" = Some (Cdk.getStackOutput output)
    /\ Cdk.heap w !! output = None
    /\ Cdk.heap w' !! output
       = Some (Cdk.CfnOutput (Database.this db) "DbHost"
                 {| Cdk.value :=
                      Cdk.instanceEndpoint_hostname (Database.dbInstance db) |})
    /\ Cdk.heap w !! Database.dbInstance db = None
    /\ Cdk.heap w' !! Database.dbInstance db
       = Some (Cdk.DatabaseInstance (Database.this db) "Instance" props)
    /\ Database.references db !! "host"
       = Some (Cdk.getCloudFormationReference
                 (Cdk.instanceEndpoint_hostname (Database.dbInstance db)))
    /\ Database.references db !! "port"
       = Some (Cdk.getCloudFormationReference
                 (Cdk.instanceEndpoint_port (Database.dbInstance db)))
    /\ output <> Database.dbInstance db.
Proof.
  intros Hwf Hfresh (network & Hprov & Hnet & Hsub) Hengine.
  destruct (EngineFacts.mapped configuration Hengine) as [e He].
  do 3 eexists. exists (S (S (length (Cdk.heap w)))).
  split; [exact (DatabaseFacts.database_constructor_eq scope id configuration provider w
                   network e Hwf Hfresh Hprov Hnet Hsub He)|].
  cbn [Database.this Database.dbInstance Database.dbHostOutput Cdk.heap].
  split; [apply lookup_singleton_eq|].
  split; [apply lookup_ge_None; lia|]. split.
  { rewrite lookup_app_r by lia.
    replace (S (S (length (Cdk.heap w))) - length (Cdk.heap w))%nat with 2%nat by lia.
    reflexivity. }
  split; [apply lookup_ge_None; lia|]. split.
  { rewrite lookup_app_r by lia.
    replace (S (length (Cdk.heap w)) - length (Cdk.heap w))%nat with 1%nat by lia.
    reflexivity. }
  split; [unfold Database.references; apply lookup_insert_eq|].
  split; [|lia].
  unfold Database.references. rewrite lookup_insert_ne by discriminate.
  apply lookup_singleton_eq.
Qed.

Lemma host_output_and_references_witness :
  exists db w' output,
    @Database.constructor Sample.sample_attributes 0%nat "db"
      Sample.unnamed_configuration Sample.sample_provider Sample.sample_world
    = Normal (db, w')
    /\ @Database.outputs db !! "host" = Some (Cdk.getStackOutput output)
    /\ Cdk.heap w' !! output
       = Some (Cdk.CfnOutput (Database.this db) "DbHost"
                 {| Cdk.value := "host-token" |}).
Proof.
  destruct (@host_output_and_references Sample.sample_attributes 0%nat "db"
              Sample.unnamed_configuration Sample.sample_provider
              Sample.sample_world SampleFacts.sample_well_formed
              SampleFacts.sample_fresh_db SampleFacts.sample_has_network)
    as (db & w' & props & output & Hrun & Hout & _ & Hheap & _).
  - cbn. unfold Reference.engines. in_list.
  - exists db, w', output. auto.
Defined.

(** In a well-formed store, under a name that is fresh under the provider's
    stack, [Vpc.create] builds the network directly under that stack and
    keeps the provider it was given; the security group whose name it
    publishes is the one it created inside that network, and the subnets it
    publishes are that network's. *)
Theorem create_under_the_stack `{Cdk.Attributes}
    (provider : Cdk.AwsProvider) (id : string)
    (configuration : Vpc.Configuration) (w : Cdk.World) :
  Reference.well_formed w ->
  Reference.fresh w (Cdk.stack provider) id ->
  exists vpc w' group,
    Vpc.create provider id configuration w = Normal (vpc, w')
    /\ Vpc.provider vpc = provider
    /\ Cdk.heap w !! Vpc.this vpc = None
    /\ Cdk.heap w' !! Vpc.this vpc
       = Some (Cdk.Vpc (Cdk.stack provider) id {| Cdk.maxAzs := 2 |})
    /\ Cdk.heap w !! group = None
    /\ Cdk.heap w' !! group
       = Some (Cdk.SecurityGroup (Vpc.this vpc) "AppSecurityGroup"
                 {| Cdk.sg_vpc := Vpc.this vpc |} [(Cdk.anyIpv4, Cdk.allTraffic)])
    /\ last (Cdk.calls w')
       = Some (Cdk.SetVpcConfig [Cdk.securityGroupName group]
                 (Cdk.subnetId <$> Cdk.privateSubnets (Vpc.this vpc))).
Proof.
  intros Hwf Hfresh.
  unfold Vpc.create. do 2 eexists. exists (S (length (Cdk.heap w))).
  split; [apply (VpcFacts.vpc_constructor_eq _ _ _ _ _ Hwf Hfresh)|].
  cbn [Vpc.this Vpc.provider Cdk.heap Cdk.calls].
  split; [reflexivity|]. split; [apply lookup_ge_None; lia|].
  split; [apply list_lookup_middle; reflexivity|].
  split; [apply lookup_ge_None; lia|]. split.
  - rewrite lookup_app_r by lia.
    replace (S (length (Cdk.heap w)) - length (Cdk.heap w))%nat with 1%nat by lia.
    reflexivity.
  - apply last_snoc.
Qed.

Lemma create_under_the_stack_witness :
  exists vpc w',
    @Vpc.create Sample.sample_attributes Sample.sample_provider "net"
      {| Vpc.type := None |} Sample.sample_world = Normal (vpc, w')
    /\ Cdk.heap w' !! Vpc.this vpc
       = Some (Cdk.Vpc 0%nat "net" {| Cdk.maxAzs := 2 |}).
Proof.
  destruct (@create_under_the_stack Sample.sample_attributes
              Sample.sample_provider "net" {| Vpc.type := None |}
              Sample.sample_world SampleFacts.sample_well_formed
              (SampleFacts.sample_fresh "net" ltac:(discriminate)
                 ltac:(discriminate) ltac:(discriminate)))
    as (vpc & w' & group & Hrun & _ & _ & Hvpc & _).
  exists vpc, w'. auto.
Defined.

(** When the configuration has a name, the instance identifier is that name
    as it is and the database name is derived from it, also when the name is
    empty: the identifier and the database name are then empty.  The
    identifier made of the stack name and the construct's id is used when
    there is no name, and only then. *)
Theorem identifier_follows_name `{Cdk.Attributes}
    (scope : Cdk.Loc) (id : string) (configuration : Database.Configuration)
    (provider : Cdk.AwsProvider) (w : Cdk.World) :
  Reference.well_formed w ->
  Reference.fresh w scope id ->
  Reference.has_network w provider ->
  Database.getEngine configuration ∈ Reference.engines ->
  exists props,
    Database.declaration scope id configuration provider w = Some props
    /\ match Database.name configuration with
       | Some s =>
           Cdk.instanceIdentifier props = s
           /\ Cdk.databaseName props = Database.safeDbName s
       | None =>
           Cdk.instanceIdentifier props = Cdk.stackName provider +:+ "-" +:+ id
           /\ Cdk.databaseName props
              = Database.safeDbName (Cdk.stackName provider +:+ "-" +:+ id)
       end
    /\ (Database.name configuration = Some "" ->
        Cdk.instanceIdentifier props = ""
        /\ Cdk.databaseName props = ""
        /\ Cdk.instanceIdentifier props <> Cdk.stackName provider +:+ "-" +:+ id).
Proof.
  intros Hwf Hfresh (network & Hprov & Hnet & Hsub) Hengine.
  destruct (EngineFacts.mapped configuration Hengine) as [e He].
  eexists. split.
  - exact (DatabaseFacts.declaration_eq scope id configuration provider w
             network e Hwf Hfresh Hprov Hnet Hsub He).
  - cbn [Cdk.databaseName Cdk.instanceIdentifier Reference.expected_props]. split.
    + destruct (Database.name configuration); split; reflexivity.
    + intros ->. repeat split.
      destruct (Cdk.stackName provider); discriminate.
Qed.

Lemma identifier_follows_name_witness :
  exists props,
    @Database.declaration Sample.sample_attributes 0%nat "db"
      Sample.empty_name_configuration Sample.sample_provider
      Sample.sample_world = Some props
    /\ Cdk.instanceIdentifier props = ""
    /\ Cdk.databaseName props = ""
    /\ Cdk.instanceIdentifier props <> "app-dev-db".
Proof.
  destruct (@identifier_follows_name Sample.sample_attributes 0%nat "db"
              Sample.empty_name_configuration Sample.sample_provider
              Sample.sample_world SampleFacts.sample_well_formed
              SampleFacts.sample_fresh_db SampleFacts.sample_has_network)
    as (props & Hdecl & _ & Hempty).
  - cbn. unfold Reference.engines. in_list.
  - exists props. split; [exact Hdecl|]. exact (Hempty eq_refl).
Defined.
